(** * Solar Power Predictor (app.py): a shallow embedding of the script

    The repository is one Streamlit script, [app.py].  A script run
    loads two pickled artifacts, reads six widgets and, when the
    "Predict" button was clicked and the artifacts are available, scales
    the single-row record, asks the model for a prediction, derives three
    unit conversions and a condition label and renders them.

    The embedding has four layers:
    - [Py]     : Python exceptions and the outcome of an evaluation;
    - [F64]    : Python floats as IEEE 754 binary64 values, with the
                 operations of the Standard Library's [SpecFloat];
    - [Pandas] : insertion-ordered dicts and the data frame built from a
                 list of records;
    - [App]    : the script itself, statement by statement, in a monad of
                 its own: a state made of the [st.cache_resource] entry
                 and the trace of external calls and rendered elements,
                 plus exceptions.

    The properties follow: the loader and its guard, degraded mode, the
    prediction path, the assembled record, determinism, the condition
    label, and the unit conversions with the rounding analysis of
    [SpecFloat]'s division and multiplication they need. *)

From Stdlib Require Import ZArith List String Ascii Bool Lia.
From Stdlib Require Import Floats.SpecFloat.
Import ListNotations.

Local Open Scope string_scope.
Local Open Scope Z_scope.
Local Open Scope list_scope.

(* ================================================================== *)
(** ** Python exceptions and outcomes *)
(* ================================================================== *)

Module Py.

(** The built-in exception classes the script can meet.  [Exception] is
    the class named by the handler at line 158; [KeyboardInterrupt],
    [SystemExit] and [GeneratorExit] derive from [BaseException] only. *)
Inductive exc_class : Type :=
  | BaseException
  | Exception
  | KeyboardInterrupt
  | SystemExit
  | GeneratorExit
  | OSError
  | FileNotFoundError
  | PermissionError
  | EOFError
  | UnpicklingError
  | ImportError
  | ModuleNotFoundError
  | ValueError
  | TypeError
  | AttributeError
  | IndexError
  | NameError.

Definition exc_class_eqb (a b : exc_class) : bool :=
  match a, b with
  | BaseException, BaseException | Exception, Exception
  | KeyboardInterrupt, KeyboardInterrupt | SystemExit, SystemExit
  | GeneratorExit, GeneratorExit | OSError, OSError
  | FileNotFoundError, FileNotFoundError
  | PermissionError, PermissionError | EOFError, EOFError
  | UnpicklingError, UnpicklingError | ImportError, ImportError
  | ModuleNotFoundError, ModuleNotFoundError | ValueError, ValueError
  | TypeError, TypeError | AttributeError, AttributeError
  | IndexError, IndexError | NameError, NameError => true
  | _, _ => false
  end.

(** Direct base class, [None] for the root. *)
Definition exc_base (c : exc_class) : option exc_class :=
  match c with
  | BaseException => None
  | Exception | KeyboardInterrupt | SystemExit | GeneratorExit =>
      Some BaseException
  | FileNotFoundError | PermissionError => Some OSError
  | ModuleNotFoundError => Some ImportError
  | OSError | EOFError | UnpicklingError | ImportError | ValueError
  | TypeError | AttributeError | IndexError | NameError => Some Exception
  end.

(** [issubclass c d], walking up the (depth at most 3) hierarchy. *)
Fixpoint issubclass_fuel (fuel : nat) (c d : exc_class) : bool :=
  exc_class_eqb c d ||
  match fuel, exc_base c with
  | S fuel', Some b => issubclass_fuel fuel' b d
  | _, _ => false
  end.

Definition issubclass : exc_class -> exc_class -> bool := issubclass_fuel 4.

(** A raised exception object: its class and its [str()]. *)
Record exn : Type := mk_exn { exn_class : exc_class; exn_str : string }.

Definition isinstance (e : exn) (c : exc_class) : bool :=
  issubclass (exn_class e) c.

(** The outcome of evaluating an expression or running a statement. *)
Inductive outcome (A : Type) : Type :=
  | Return (a : A)
  | Raise (e : exn).
Arguments Return {A} a.
Arguments Raise {A} e.

Definition raises {A : Type} (o : outcome A) : bool :=
  match o with Return _ => false | Raise _ => true end.

End Py.

Import Py.

(* ================================================================== *)
(** ** Python floats: IEEE 754 binary64 *)
(* ================================================================== *)

Module F64.

Definition float : Type := spec_float.

Definition prec : Z := 53.
Definition emax : Z := 1024.

Definition fdiv : float -> float -> float := SFdiv prec emax.
Definition fmul : float -> float -> float := SFmul prec emax.

(** Comparisons: [a < b], [a > b] and [a == b] on floats; every
    comparison with a NaN is [False]. *)
Definition flt (a b : float) : bool := SFltb a b.
Definition fgt (a b : float) : bool := SFltb b a.

(** An [int] operand of a float operation is first converted to the
    nearest float. *)
Definition of_int (n : Z) : float := binary_normalize prec emax n 0 false.

(** A decimal literal [num / 10^dec], correctly rounded (round to nearest,
    ties to even) as the Python parser does: the quotient of two exactly
    converted integers below [2^53] is the correctly rounded value. *)
Definition of_decimal (num : Z) (dec : nat) : float :=
  fdiv (of_int num) (of_int (10 ^ Z.of_nat dec)).

Definition valid (x : float) : bool := valid_binary prec emax x.

Definition is_finite (x : float) : bool :=
  match x with
  | S754_zero _ | S754_finite _ _ _ => true
  | _ => false
  end.

(** The value of a finite float counted in units of [2^-1074], the
    smallest positive binary64 number: every finite binary64 value is a
    whole number of them. *)
Definition units (x : float) : Z :=
  match x with
  | S754_finite s m e => cond_Zopp s (Zpos m * 2 ^ (e + 1074))
  | _ => 0
  end.


(** The floats on which the conversions are followed back: zero, and the
    normal numbers of magnitude in [[2^-1000, 2^1021)]. *)
Definition in_roundtrip_range (x : float) : bool :=
  match x with
  | S754_zero _ => true
  | S754_finite _ m e =>
      (Zpos (digits2_pos m) =? 53) && (-1052 <=? e) && (e <=? 968)
  | _ => false
  end.

End F64.

(* ================================================================== *)
(** ** Locating an exact value between two mantissas *)
(* ================================================================== *)

Module Rounding.

(** The exact value [V / D] lies in [[m, m + 1)], and [l] tells where:
    on [m], below, at or above [m + 1/2]. *)
Definition located (V D m : Z) (l : location) : Prop :=
  0 <= m /\ 0 <= V - m * D < D /\
  match l with
  | loc_Exact => V - m * D = 0
  | loc_Inexact c => 0 < V - m * D /\ (2 * (V - m * D) ?= D) = c
  end.

(** A mantissa with all its [pr] digits: that of a normal number. *)
Definition normal_mantissa (pr : Z) (m : positive) : Prop :=
  Zpos (digits2_pos m) = pr.

End Rounding.

Import Rounding.

Import F64.

(* ================================================================== *)
(** ** Dicts and data frames *)
(* ================================================================== *)

Module Pandas.

(** A cell holds what a widget returned: a Python [float] or [int]. *)
Inductive cell : Type :=
  | CFloat (x : float)
  | CInt (n : Z).

(** A Python dict keeps its keys in insertion order; assigning to a key
    already present keeps the key's position. *)
Definition dict : Type := list (string * cell).

Fixpoint dict_set (d : dict) (k : string) (v : cell) : dict :=
  match d with
  | [] => [(k, v)]
  | (k', v') :: rest =>
      if String.eqb k k' then (k', v) :: rest
      else (k', v') :: dict_set rest k v
  end.

Definition dict_literal (items : list (string * cell)) : dict :=
  fold_left (fun d kv => dict_set d (fst kv) (snd kv)) items [].

Definition dict_keys (d : dict) : list string := map fst d.

Fixpoint dict_get (d : dict) (k : string) : option cell :=
  match d with
  | [] => None
  | (k', v) :: rest => if String.eqb k k' then Some v else dict_get rest k
  end.

Record DataFrame : Type := mk_df {
  df_columns : list string;
  df_rows : list (list cell)
}.

Definition mem_string (k : string) (l : list string) : bool :=
  existsb (String.eqb k) l.

(** Columns of [pd.DataFrame(records)]: the keys of the records in order
    of first appearance. *)
Definition union_keys (records : list dict) : list string :=
  fold_left
    (fun cols d =>
       fold_left (fun cs k => if mem_string k cs then cs else (cs ++ [k])%list)
                 (dict_keys d) cols)
    records [].

(** [pd.DataFrame(records)] for a list of dicts: one row per record, a
    NaN where a record misses a column. *)
Definition pd_DataFrame (records : list dict) : DataFrame :=
  let cols := union_keys records in
  mk_df cols
        (map (fun d =>
                map (fun c => match dict_get d c with
                              | Some v => v
                              | None => CFloat S754_nan
                              end) cols)
             records).

Definition shape (df : DataFrame) : nat * nat :=
  (List.length (df_rows df), List.length (df_columns df)).

End Pandas.

Import Pandas.

(* ================================================================== *)
(** ** The script *)
(* ================================================================== *)

Module App.

(** The 2-D array [scaler.transform] returns and [model.predict] takes;
    the script never looks inside it. *)
Definition ndarray2 : Type := list (list float).

(** What [joblib.load] returns: an object with the two methods the script
    calls.  An object without one of them is one whose method raises
    [AttributeError].  The artifacts are immutable, so a method is a
    function of its argument.  The elements of the array [model.predict]
    returns are read as binary64 values: those of a float64 array, and
    those of a float32 one (a binary32 value is a binary64 value) whose
    scalar the division promotes. *)
Record pyobj : Type := mk_pyobj {
  py_transform : DataFrame -> outcome ndarray2;
  py_predict : ndarray2 -> outcome (list float)
}.

(** The values the six widgets and the button return in a run. *)
Record widgets : Type := mk_widgets {
  distance_to_solar_noon : float;
  temperature : float;
  sky_cover : Z;
  visibility : float;
  humidity : Z;
  wind_speed : float;
  predict_clicked : bool
}.

(** A replacement field of an f-string: the value and its format spec. *)
Record field : Type := mk_field { fld_value : float; fld_spec : string }.

(** The result box of lines 239-261. *)
Record result_box : Type := mk_result_box {
  rb_color_hint : string;
  rb_condition : string;
  rb_prediction : field;
  rb_kwh : field;
  rb_kilojoules : field;
  rb_kwh_per_day : field
}.

(** What a run does that is visible outside it, in order. *)
Inductive event : Type :=
  | EvLoad (path : string)              (* joblib.load(path) *)
  | EvTransform (df : DataFrame)        (* scaler.transform(df) *)
  | EvPredict (x : ndarray2)            (* model.predict(x) *)
  | EvError (msg : string)              (* st.error(msg) *)
  | EvStatic (what : string)            (* a fixed st.markdown block *)
  | EvResult (rb : result_box)          (* the result box *)
  | EvSummary (df : DataFrame).         (* the input summary table *)

(** The state a run threads: the [st.cache_resource] entry of
    [load_artifacts], which outlives the run, and the trace. *)
Record session : Type := mk_session {
  resource_cache : option (pyobj * pyobj);
  trace : list event
}.

Definition M (A : Type) : Type := session -> outcome A * session.

Definition ret {A : Type} (a : A) : M A := fun s => (Return a, s).

Definition bind {A B : Type} (m : M A) (k : A -> M B) : M B :=
  fun s =>
    match m s with
    | (Return a, s') => k a s'
    | (Raise e, s') => (Raise e, s')
    end.

Notation "x <- m ;; k" := (bind m (fun x => k))
  (at level 61, m at next level, right associativity).
Notation "m ;;; k" := (bind m (fun _ => k))
  (at level 61, right associativity).

Definition raise {A : Type} (e : exn) : M A := fun s => (Raise e, s).

Definition lift {A : Type} (o : outcome A) : M A := fun s => (o, s).

Definition emit (ev : event) : M unit :=
  fun s => (Return tt, mk_session (resource_cache s) (trace s ++ [ev])%list).

(** [try: body / except Exception as e: handler e]. *)
Definition try_except_Exception {A : Type}
    (body : M A) (handler : exn -> M A) : M A :=
  fun s =>
    match body s with
    | (Return a, s') => (Return a, s')
    | (Raise e, s') =>
        if isinstance e Exception then handler e s' else (Raise e, s')
    end.

(** [@st.cache_resource]: the first successful call stores its value and
    later calls return it without running the body; a call that raises
    stores nothing. *)
Definition cache_resource (body : M (pyobj * pyobj)) : M (pyobj * pyobj) :=
  fun s =>
    match resource_cache s with
    | Some v => (Return v, s)
    | None =>
        match body s with
        | (Return v, s') => (Return v, mk_session (Some v) (trace s'))
        | (Raise e, s') => (Raise e, s')
        end
    end.

(** Reading a global that may not have been bound. *)
Definition name_lookup {A : Type} (name : string) (o : option A) : M A :=
  match o with
  | Some a => ret a
  | None => raise (mk_exn NameError ("name '" ++ name ++ "' is not defined")%string)
  end.

(** [a[0]] on a 1-D array. *)
Definition getitem0 (a : list float) : M float :=
  match a with
  | x :: _ => ret x
  | [] => raise (mk_exn IndexError
                   "index 0 is out of bounds for axis 0 with size 0")
  end.

Section Script.

(** The files next to the script, as [joblib.load] sees them. *)
Variable disk : string -> outcome pyobj.

Definition joblib_load (path : string) : M pyobj :=
  emit (EvLoad path) ;;; lift (disk path).

Definition call_transform (o : pyobj) (df : DataFrame) : M ndarray2 :=
  emit (EvTransform df) ;;; lift (py_transform o df).

Definition call_predict (o : pyobj) (x : ndarray2) : M (list float) :=
  emit (EvPredict x) ;;; lift (py_predict o x).

(** Lines 149-153. *)
Definition load_artifacts_body : M (pyobj * pyobj) :=
  model <- joblib_load "model.pkl" ;;
  scaler <- joblib_load "scaler.pkl" ;;
  ret (model, scaler).

Definition load_artifacts : M (pyobj * pyobj) :=
  cache_resource load_artifacts_body.

(** The module globals bound by lines 155-160. *)
Record globals : Type := mk_globals {
  model : option pyobj;
  scaler : option pyobj;
  model_loaded : bool
}.

Definition nl : string := String (ascii_of_nat 10) EmptyString.

(** The message of line 160. *)
Definition load_error_message (e : exn) : string :=
  ("⚠️ Could not load model files: " ++ exn_str e ++ nl ++ nl ++
   "Make sure `model.pkl` and `scaler.pkl` are in the same folder as `app.py`.")%string.

(** The message of line 274. *)
Definition not_found_message : string :=
  "Model files not found. Please check that `model.pkl` and `scaler.pkl` are in the same directory.".

(** Lines 155-160. *)
Definition load_guard : M globals :=
  try_except_Exception
    (p <- load_artifacts ;;
     let '(model, scaler) := p in
     ret (mk_globals (Some model) (Some scaler) true))
    (fun e =>
       emit (EvError (load_error_message e)) ;;;
       ret (mk_globals None None false)).

(** Lines 229-237: the condition text and its colour. *)
Definition condition (sky_cover : Z) (distance_to_solar_noon : float)
  : string * string :=
  if (sky_cover =? 0)%Z && flt distance_to_solar_noon (of_decimal 3 1) then
    ("🌟 Ideal Solar Conditions", "#ffd200")
  else if (sky_cover >=? 3)%Z || fgt distance_to_solar_noon (of_decimal 12 1) then
    ("🌑 Low Solar Output Expected", "#8884a8")
  else
    ("⛅ Moderate Solar Conditions", "#f7971e").

(** Line 226. *)
Definition kwh_of (prediction : float) : float :=
  fdiv prediction (of_int 3600000).

(** Line 252, the value of the replacement field. *)
Definition kilojoules_of (prediction : float) : float :=
  fdiv prediction (of_int 1000).

(** Line 256, the value of the replacement field. *)
Definition kwh_per_day_of (kwh : float) : float :=
  fmul kwh (of_int 8).

(** Lines 213-220. *)
Definition input_df_of (w : widgets) : DataFrame :=
  pd_DataFrame
    [ dict_literal
        [ ("distance_to_solar_noon", CFloat (distance_to_solar_noon w));
          ("temperature", CFloat (temperature w));
          ("sky_cover", CInt (sky_cover w));
          ("visibility", CFloat (visibility w));
          ("humidity", CInt (humidity w));
          ("wind_speed", CFloat (wind_speed w)) ] ].

(** Lines 239-261. *)
Definition render_result (w : widgets) (prediction : float) : result_box :=
  let kwh := kwh_of prediction in
  let '(condition, color_hint) :=
    condition (sky_cover w) (distance_to_solar_noon w) in
  mk_result_box color_hint condition
    (mk_field prediction ",.0f")
    (mk_field kwh ".4f")
    (mk_field (kilojoules_of prediction) ",.1f")
    (mk_field (kwh_per_day_of kwh) ".4f").

(** Lines 222-271: what the body of the [if] does with [input_df]. *)
Definition predict_on (g : globals) (w : widgets) (input_df : DataFrame)
  : M unit :=
  scaler <- name_lookup "scaler" (scaler g) ;;
  input_scaled <- call_transform scaler input_df ;;
  model <- name_lookup "model" (model g) ;;
  predicted <- call_predict model input_scaled ;;
  prediction <- getitem0 predicted ;;
  emit (EvResult (render_result w prediction)) ;;;
  emit (EvSummary input_df).

(** Lines 213-271: the body of the [if]. *)
Definition predict_branch (g : globals) (w : widgets) : M unit :=
  predict_on g w (input_df_of w).

(** Lines 162-295: the page below the guard. *)
Definition page (g : globals) (w : widgets) : M unit :=
  emit (EvStatic "hero") ;;;
  emit (EvStatic "form") ;;;
  (if predict_clicked w && model_loaded g then predict_branch g w
   else if predict_clicked w && negb (model_loaded g) then
     emit (EvError not_found_message)
   else ret tt) ;;;
  emit (EvStatic "footer") ;;;
  emit (EvStatic "feature guide").

(** The whole script, top to bottom: page configuration and style sheet,
    the guarded load, the page. *)
Definition script (w : widgets) : M unit :=
  emit (EvStatic "css") ;;;
  g <- load_guard ;;
  page g w.

End Script.

(** A run of the script in a fresh process: nothing cached, empty page. *)
Definition fresh : session := mk_session None [].

Definition run (disk : string -> outcome pyobj) (w : widgets)
  : outcome unit * session :=
  script disk w fresh.

(** *** Reading a trace *)

Definition is_load (path : string) (ev : event) : bool :=
  match ev with EvLoad p => String.eqb p path | _ => false end.

Definition is_artifact_call (ev : event) : bool :=
  match ev with EvTransform _ | EvPredict _ => true | _ => false end.

(** How many times [joblib.load(path)] was called. *)
Definition loads_of (path : string) (t : list event) : nat :=
  List.length (filter (is_load path) t).

(** The calls to [scaler.transform] and [model.predict]. *)
Definition artifact_calls (t : list event) : list event :=
  filter is_artifact_call t.

(** The messages shown with [st.error]. *)
Fixpoint errors_of (t : list event) : list string :=
  match t with
  | [] => []
  | EvError msg :: t' => msg :: errors_of t'
  | _ :: t' => errors_of t'
  end.

(** The result boxes rendered. *)
Fixpoint results_of (t : list event) : list result_box :=
  match t with
  | [] => []
  | EvResult rb :: t' => rb :: results_of t'
  | _ :: t' => results_of t'
  end.

(** The events a computation added to the trace of the session it
    started from. *)
Definition added {A : Type} (s : session) (r : outcome A * session)
  : list event :=
  skipn (List.length (trace s)) (trace (snd r)).

(** [needle] occurs in [hay]. *)
Definition occurs_in (needle hay : string) : Prop :=
  exists pre post, hay = (pre ++ needle ++ post)%string.

(** What loading yields, as a function of the files alone. *)
Definition load_outcome (disk : string -> outcome pyobj)
  : outcome (pyobj * pyobj) :=
  match disk "model.pkl" with
  | Raise e => Raise e
  | Return m =>
      match disk "scaler.pkl" with
      | Raise e => Raise e
      | Return sc => Return (m, sc)
      end
  end.

(** The [joblib.load] calls of one execution of [load_artifacts]'s body. *)
Definition load_calls (disk : string -> outcome pyobj) : list event :=
  match disk "model.pkl" with
  | Raise _ => [EvLoad "model.pkl"]
  | Return _ => [EvLoad "model.pkl"; EvLoad "scaler.pkl"]
  end.

(** What a fresh run shows before the form: the style sheet and the
    [joblib.load] calls. *)
Definition prologue (disk : string -> outcome pyobj) : list event :=
  EvStatic "css" :: load_calls disk.

Definition epilogue : list event :=
  [EvStatic "footer"; EvStatic "feature guide"].

(** The reading of the loader's contract in which the pair is
    (scaler, model). *)
Definition returns_scaler_then_model (disk : string -> outcome pyobj)
  : Prop :=
  forall p, fst (load_artifacts disk fresh) = Return p ->
            disk "scaler.pkl" = Return (fst p) /\
            disk "model.pkl" = Return (snd p).

(** The reading the script's unpacking relies on: (model, scaler). *)
Definition returns_model_then_scaler (disk : string -> outcome pyobj)
  : Prop :=
  forall p, fst (load_artifacts disk fresh) = Return p ->
            disk "model.pkl" = Return (fst p) /\
            disk "scaler.pkl" = Return (snd p).

(** A failure is surfaced as a message of the script's own when the run
    ends normally and has shown an error message. *)
Definition surfaced_as_message (r : outcome unit * session) : Prop :=
  fst r = Return tt /\ errors_of (trace (snd r)) <> [].

(** The request of [w] with another state of the button. *)
Definition with_button (w : widgets) (b : bool) : widgets :=
  mk_widgets (distance_to_solar_noon w) (temperature w) (sky_cover w)
             (visibility w) (humidity w) (wind_speed w) b.

(** *** The condition label as the specification words it *)

Inductive label : Type := IDEAL | LOW | MODERATE.

Definition label_text (l : label) : string * string :=
  match l with
  | IDEAL => ("🌟 Ideal Solar Conditions", "#ffd200")
  | LOW => ("🌑 Low Solar Output Expected", "#8884a8")
  | MODERATE => ("⛅ Moderate Solar Conditions", "#f7971e")
  end.

(** Rules 1 to 3 of the specification, as propositions. *)
Definition rule_ideal (sky : Z) (d : float) : Prop :=
  sky = 0 /\ flt d (of_decimal 3 1) = true.

Definition rule_low (sky : Z) (d : float) : Prop :=
  sky >= 3 \/ fgt d (of_decimal 12 1) = true.

End App.

Import App.

(* ================================================================== *)
(** ** Concrete artifacts, files and requests *)
(* ================================================================== *)

Module Examples.

Definition cell_to_float (c : cell) : float :=
  match c with
  | CFloat x => x
  | CInt n => of_int n
  end.

(** A scaler that leaves every column as it is; it has no [predict]. *)
Definition identity_scaler : pyobj :=
  mk_pyobj
    (fun df => Return (map (map cell_to_float) (df_rows df)))
    (fun _ => Raise (mk_exn AttributeError
                       "'StandardScaler' object has no attribute 'predict'")).

(** A model that answers [-5.0] for every row; it has no [transform]. *)
Definition negative_model : pyobj :=
  mk_pyobj
    (fun _ => Raise (mk_exn AttributeError
                       "'XGBRegressor' object has no attribute 'transform'"))
    (fun x => Return (map (fun _ => of_int (-5)) x)).

(** A scaler that rejects every frame. *)
Definition failing_scaler : pyobj :=
  mk_pyobj
    (fun _ => Raise (mk_exn ValueError "X has 6 features, but StandardScaler is expecting 5 features as input."))
    (fun _ => Raise (mk_exn AttributeError
                       "'StandardScaler' object has no attribute 'predict'")).

Definition no_such_file (path : string) : exn :=
  mk_exn FileNotFoundError
    ("[Errno 2] No such file or directory: '" ++ path ++ "'")%string.

(** Both files present. *)
Definition good_disk (path : string) : outcome pyobj :=
  if String.eqb path "model.pkl" then Return negative_model
  else if String.eqb path "scaler.pkl" then Return identity_scaler
  else Raise (no_such_file path).

(** No file present. *)
Definition empty_disk (path : string) : outcome pyobj :=
  Raise (no_such_file path).

(** Only the model present. *)
Definition model_only_disk (path : string) : outcome pyobj :=
  if String.eqb path "model.pkl" then Return negative_model
  else Raise (no_such_file path).

(** Both present, the scaler rejecting its input. *)
Definition bad_scaler_disk (path : string) : outcome pyobj :=
  if String.eqb path "model.pkl" then Return negative_model
  else if String.eqb path "scaler.pkl" then Return failing_scaler
  else Raise (no_such_file path).

(** A [model.pkl] whose unpickling calls [sys.exit()]. *)
Definition exiting_disk (path : string) : outcome pyobj :=
  Raise (mk_exn SystemExit "").

(** A [model.pkl] that unpickles into a call with a wrong argument. *)
Definition type_error_disk (path : string) : outcome pyobj :=
  Raise (mk_exn TypeError "__init__() missing 1 required positional argument").

(** The form's defaults, with the button clicked. *)
Definition default_request : widgets :=
  mk_widgets (of_decimal 3 1) (of_decimal 250 1) 0 (of_decimal 100 1) 45
             (of_decimal 35 1) true.

End Examples.

Import Examples.

(* ================================================================== *)
(** ** The sky-cover selector *)
(* ================================================================== *)

Module Form.

(** Line 188. *)
Definition sky_cover_options : list Z := [0; 1; 2; 3; 4].

(** The dict literal of line 190. *)
Definition sky_cover_names : list (Z * string) :=
  [ (0, "0 — Clear ☀️");
    (1, "1 — Mostly Clear 🌤️");
    (2, "2 — Partly Cloudy ⛅");
    (3, "3 — Mostly Cloudy 🌥️");
    (4, "4 — Overcast ☁️") ].

(** [d[x]] on a dict with [int] keys; [None] stands for the [KeyError] a
    missing key raises. *)
Fixpoint int_dict_getitem (d : list (Z * string)) (x : Z) : option string :=
  match d with
  | [] => None
  | (k, v) :: rest => if (x =? k)%Z then Some v else int_dict_getitem rest x
  end.

(** Line 190: [lambda x: {...}[x]]. *)
Definition format_func (x : Z) : option string :=
  int_dict_getitem sky_cover_names x.

(** The decimal digit of an option, as a one-character string. *)
Definition digit_string (x : Z) : string :=
  String (ascii_of_nat (48 + Z.to_nat x)) EmptyString.

End Form.

Import Form.

(* ================================================================== *)
(** ** Runs of the script in one process *)
(* ================================================================== *)

Module Process.

(** One more run of the script in a process whose [st.cache_resource]
    entry is [c]: the page starts empty, the entry is the one the runs
    before left. *)
Definition rerun (disk : string -> outcome pyobj) (w : widgets)
    (c : option (pyobj * pyobj)) : outcome unit * session :=
  script disk w (mk_session c []).

(** The runs of a process, one per user interaction: each finds the files
    and the widgets as they are then. *)
Fixpoint reruns (steps : list ((string -> outcome pyobj) * widgets))
    (c : option (pyobj * pyobj)) : list (outcome unit * session) :=
  match steps with
  | [] => []
  | (disk, w) :: rest =>
      let r := rerun disk w c in
      r :: reruns rest (resource_cache (snd r))
  end.

(** The entry the runs leave behind. *)
Fixpoint cache_after (steps : list ((string -> outcome pyobj) * widgets))
    (c : option (pyobj * pyobj)) : option (pyobj * pyobj) :=
  match steps with
  | [] => c
  | (disk, w) :: rest => cache_after rest (resource_cache (snd (rerun disk w c)))
  end.

(** A model that answers an empty array. *)
Definition silent_model : pyobj :=
  mk_pyobj
    (fun _ => Raise (mk_exn AttributeError
                       "'XGBRegressor' object has no attribute 'transform'"))
    (fun _ => Return []).

Definition silent_model_disk (path : string) : outcome pyobj :=
  if String.eqb path "model.pkl" then Return silent_model
  else if String.eqb path "scaler.pkl" then Return identity_scaler
  else Raise (no_such_file path).

End Process.

Import Process.

(* ================================================================== *)
(** ** Reading a condition and a float *)
(* ================================================================== *)

Module Reading.

(** The label a rendered condition stands for. *)
Definition label_of_condition (c : string * string) : option label :=
  if String.eqb (fst c) (fst (label_text IDEAL)) then Some IDEAL
  else if String.eqb (fst c) (fst (label_text MODERATE)) then Some MODERATE
  else if String.eqb (fst c) (fst (label_text LOW)) then Some LOW
  else None.

(** From the best conditions to the worst. *)
Definition rank (l : label) : nat :=
  match l with
  | IDEAL => 0
  | MODERATE => 1
  | LOW => 2
  end.

(** The sign bit of a float, [None] for a NaN. *)
Definition sign_of (x : float) : option bool :=
  match x with
  | S754_nan => None
  | S754_zero s | S754_infinity s | S754_finite s _ _ => Some s
  end.

(** The predictions the two divisions are followed on: zero, and the
    valid normal numbers of magnitude at least [2^-1000]. *)
Definition in_division_range (x : float) : bool :=
  match x with
  | S754_zero _ => true
  | S754_finite _ _ e => valid x && (-1052 <=? e)
  | _ => false
  end.

End Reading.

Import Reading.

(* ================================================================== *)
(** ** The artifact loader and its guard *)
(* ================================================================== *)

Section LoaderFacts.

Variable disk : string -> outcome pyobj.

(** One execution of the body of [load_artifacts]: its [joblib.load]
    calls are appended to the trace, the cache is left alone. *)
Lemma load_artifacts_body_run (s : session) :
  load_artifacts_body disk s =
  (load_outcome disk,
   mk_session (resource_cache s) (trace s ++ load_calls disk)).
Proof.
  unfold load_artifacts_body, load_outcome, load_calls, joblib_load, bind,
    emit, lift, ret; simpl.
  destruct (disk "model.pkl") as [m | e]; simpl; [| reflexivity].
  destruct (disk "scaler.pkl") as [sc | e]; simpl;
    rewrite <- app_assoc; reflexivity.
Qed.

(** With nothing cached, [load_artifacts] is its body, and a success is
    stored. *)
Lemma load_artifacts_uncached (t : list event) :
  load_artifacts disk (mk_session None t) =
  (load_outcome disk,
   mk_session (match load_outcome disk with
               | Return v => Some v
               | Raise _ => None
               end)
              (t ++ load_calls disk)).
Proof.
  unfold load_artifacts, cache_resource; simpl.
  rewrite load_artifacts_body_run; simpl.
  destruct (load_outcome disk); reflexivity.
Qed.

(** With a cached pair, [load_artifacts] returns it and touches no file. *)
Lemma load_artifacts_cached (v : pyobj * pyobj) (t : list event) :
  load_artifacts disk (mk_session (Some v) t) =
  (Return v, mk_session (Some v) t).
Proof. reflexivity. Qed.

(** The guard of lines 155-160, nothing cached. *)
Lemma load_guard_uncached (t : list event) :
  load_guard disk (mk_session None t) =
  match load_outcome disk with
  | Return (m, sc) =>
      (Return (mk_globals (Some m) (Some sc) true),
       mk_session (Some (m, sc)) (t ++ load_calls disk))
  | Raise e =>
      if isinstance e Exception then
        (Return (mk_globals None None false),
         mk_session None
           (t ++ load_calls disk ++ [EvError (load_error_message e)]))
      else
        (Raise e, mk_session None (t ++ load_calls disk))
  end.
Proof.
  unfold load_guard, try_except_Exception, bind.
  rewrite load_artifacts_uncached.
  destruct (load_outcome disk) as [[m sc] | e]; simpl; [reflexivity |].
  destruct (isinstance e Exception); [| reflexivity].
  unfold emit, ret; simpl. rewrite <- app_assoc. reflexivity.
Qed.

End LoaderFacts.

(* ================================================================== *)
(** ** A run of the script, case by case *)
(* ================================================================== *)

(** Unfold the monad's operations and project the session's fields. *)
Ltac script_eval :=
  unfold bind, emit, ret, lift, raise;
  cbn [fst snd resource_cache trace model scaler model_loaded andb negb].

(** Compare two traces up to the bracketing of their appends. *)
Ltac trace_eq :=
  repeat rewrite <- app_assoc; cbn [app]; reflexivity.

Section RunFacts.

Variable disk : string -> outcome pyobj.
Variable w : widgets.

(** The script after its first statement, at the load guard. *)
Lemma run_unfold :
  run disk w =
  (g <- load_guard disk ;; page g w) (mk_session None [EvStatic "css"]).
Proof. reflexivity. Qed.

(** Loading raised something the guard does not catch: the run stops
    there. *)
Lemma run_load_escapes (e : exn) :
  load_outcome disk = Raise e ->
  isinstance e Exception = false ->
  run disk w = (Raise e, mk_session None (prologue disk)).
Proof.
  intros Hl He. rewrite run_unfold. unfold bind at 1.
  rewrite load_guard_uncached, Hl, He. reflexivity.
Qed.

(** Loading raised an [Exception]: the run goes on in degraded mode. *)
Lemma run_load_caught (e : exn) :
  load_outcome disk = Raise e ->
  isinstance e Exception = true ->
  run disk w =
  (Return tt,
   mk_session None
     (prologue disk ++
      [EvError (load_error_message e); EvStatic "hero"; EvStatic "form"] ++
      (if predict_clicked w then [EvError not_found_message] else []) ++
      epilogue)).
Proof.
  intros Hl He. rewrite run_unfold. unfold bind at 1.
  rewrite load_guard_uncached, Hl, He.
  unfold prologue, epilogue, page.
  destruct (predict_clicked w); script_eval; f_equal; f_equal; trace_eq.
Qed.

(** Loading succeeded, the button was not clicked. *)
Lemma run_idle (m sc : pyobj) :
  load_outcome disk = Return (m, sc) ->
  predict_clicked w = false ->
  run disk w =
  (Return tt,
   mk_session (Some (m, sc))
     (prologue disk ++ [EvStatic "hero"; EvStatic "form"] ++ epilogue)).
Proof.
  intros Hl Hc. rewrite run_unfold. unfold bind at 1.
  rewrite load_guard_uncached, Hl. unfold page. rewrite Hc.
  unfold prologue, epilogue. script_eval. f_equal; f_equal; trace_eq.
Qed.

(** Loading succeeded and the button was clicked: the outcome follows
    [scaler.transform], [model.predict] and the indexing. *)
Lemma run_predict (m sc : pyobj) :
  load_outcome disk = Return (m, sc) ->
  predict_clicked w = true ->
  run disk w =
  let df := input_df_of w in
  let before := prologue disk ++ [EvStatic "hero"; EvStatic "form"] in
  match py_transform sc df with
  | Raise e =>
      (Raise e, mk_session (Some (m, sc)) (before ++ [EvTransform df]))
  | Return x =>
      match py_predict m x with
      | Raise e =>
          (Raise e,
           mk_session (Some (m, sc))
             (before ++ [EvTransform df; EvPredict x]))
      | Return [] =>
          (Raise (mk_exn IndexError
                    "index 0 is out of bounds for axis 0 with size 0"),
           mk_session (Some (m, sc))
             (before ++ [EvTransform df; EvPredict x]))
      | Return (y :: _) =>
          (Return tt,
           mk_session (Some (m, sc))
             (before ++
              [EvTransform df; EvPredict x;
               EvResult (render_result w y); EvSummary df] ++ epilogue))
      end
  end.
Proof.
  intros Hl Hc. rewrite run_unfold. unfold bind at 1.
  rewrite load_guard_uncached, Hl. unfold page. rewrite Hc.
  unfold prologue, epilogue, predict_branch, predict_on,
    call_transform, call_predict, name_lookup, getitem0.
  script_eval.
  destruct (py_transform sc (input_df_of w)) as [x | e]; script_eval;
    [| f_equal; f_equal; trace_eq].
  destruct (py_predict m x) as [[| y ys] | e]; script_eval;
    f_equal; f_equal; trace_eq.
Qed.

End RunFacts.

(* ================================================================== *)
(** ** The loader's contract *)
(* ================================================================== *)

(** Two objects that answer [transform] differently are different. *)
Lemma pyobj_neq_by_transform (a b : pyobj) (df : DataFrame) :
  raises (py_transform a df) <> raises (py_transform b df) ->
  Return a <> Return b :> outcome pyobj.
Proof.
  intros Hne Heq. apply Hne. injection Heq as ->. reflexivity.
Qed.

(** C7, as stated, fails: with both files present the first component of
    the pair [load_artifacts] returns is the object read from
    [model.pkl], which is not the one stored in [scaler.pkl]. *)
Lemma load_artifacts_scaler_first_refuted :
  fst (load_artifacts good_disk fresh) =
    Return (negative_model, identity_scaler) /\
  good_disk "model.pkl" = Return negative_model /\
  good_disk "scaler.pkl" = Return identity_scaler /\
  ~ returns_scaler_then_model good_disk.
Proof.
  split; [reflexivity |]. split; [reflexivity |]. split; [reflexivity |].
  intros H. destruct (H (negative_model, identity_scaler) eq_refl) as [Hs _].
  revert Hs. apply (pyobj_neq_by_transform _ _ (mk_df [] [])).
  discriminate.
Qed.

(** C7, amended: [load_artifacts] returns the pair (model, scaler): its
    first component is the object read from [model.pkl], its second the
    one read from [scaler.pkl], [model.pkl] being read first; when a read
    raises, the call raises the same exception; and the guard binds
    [model] to the first component and [scaler] to the second. *)
Theorem load_artifacts_returns_model_then_scaler :
  forall (disk : string -> outcome pyobj) (t : list event),
    fst (load_artifacts disk (mk_session None t)) =
      match disk "model.pkl" with
      | Raise e => Raise e
      | Return m =>
          match disk "scaler.pkl" with
          | Raise e => Raise e
          | Return sc => Return (m, sc)
          end
      end /\
    returns_model_then_scaler disk /\
    (forall m sc,
        fst (load_artifacts disk (mk_session None t)) = Return (m, sc) ->
        fst (load_guard disk (mk_session None t)) =
          Return (mk_globals (Some m) (Some sc) true)).
Proof.
  intros disk t. split; [| split].
  - rewrite load_artifacts_uncached. reflexivity.
  - intros [m sc]. unfold fresh. rewrite load_artifacts_uncached.
    unfold load_outcome. cbn [fst snd].
    destruct (disk "model.pkl") as [m' | e]; [| discriminate].
    destruct (disk "scaler.pkl") as [sc' | e]; [| discriminate].
    intros H. injection H as -> ->. split; reflexivity.
  - intros m sc. rewrite load_artifacts_uncached, load_guard_uncached.
    cbn [fst]. intros ->. reflexivity.
Qed.

(* ================================================================== *)
(** ** Degraded mode *)
(* ================================================================== *)

(** The classes the handler [except Exception] lets through are the
    root and the three that derive from it directly. *)
Lemma not_below_Exception (c : exc_class) :
  issubclass c Exception = false <->
  c = BaseException \/ c = KeyboardInterrupt \/ c = SystemExit \/
  c = GeneratorExit.
Proof.
  split.
  - destruct c; cbn; intros H; try discriminate H; auto.
  - intros [-> | [-> | [-> | ->]]]; reflexivity.
Qed.

Lemma load_calls_model_once (disk : string -> outcome pyobj) :
  loads_of "model.pkl" (load_calls disk) = 1%nat /\
  (loads_of "scaler.pkl" (load_calls disk) <= 1)%nat /\
  artifact_calls (load_calls disk) = [] /\
  errors_of (load_calls disk) = [] /\
  results_of (load_calls disk) = [].
Proof.
  unfold load_calls. destruct (disk "model.pkl"); cbn; auto.
Qed.

Lemma errors_of_app (t u : list event) :
  errors_of (t ++ u) = errors_of t ++ errors_of u.
Proof.
  induction t as [| ev t IH]; [reflexivity |].
  destruct ev; cbn; rewrite IH; reflexivity.
Qed.

Lemma results_of_app (t u : list event) :
  results_of (t ++ u) = results_of t ++ results_of u.
Proof.
  induction t as [| ev t IH]; [reflexivity |].
  destruct ev; cbn; rewrite IH; reflexivity.
Qed.

Lemma artifact_calls_app (t u : list event) :
  artifact_calls (t ++ u) = artifact_calls t ++ artifact_calls u.
Proof. apply filter_app. Qed.

Lemma loads_of_app (path : string) (t u : list event) :
  loads_of path (t ++ u) = (loads_of path t + loads_of path u)%nat.
Proof. unfold loads_of. rewrite filter_app, length_app. reflexivity. Qed.

(** Project a run's trace and push a reading function through its
    appends, down to the [joblib.load] calls. *)
Ltac read_trace disk :=
  cbn [fst snd trace resource_cache]; unfold prologue, epilogue;
  change (EvStatic "css" :: load_calls disk)
    with ([EvStatic "css"] ++ load_calls disk);
  rewrite ?errors_of_app, ?artifact_calls_app, ?results_of_app,
    ?loads_of_app.





(** The same with [model.pkl] present and [scaler.pkl] missing: both
    files are tried once, in this order, and nothing is cached. *)
Example scaler_missing_run :
  run model_only_disk default_request =
  (Return tt,
   mk_session None
     [EvStatic "css"; EvLoad "model.pkl"; EvLoad "scaler.pkl";
      EvError (load_error_message (no_such_file "scaler.pkl"));
      EvStatic "hero"; EvStatic "form"; EvError not_found_message;
      EvStatic "footer"; EvStatic "feature guide"]).
Proof. reflexivity. Qed.

(** C10, as stated, fails: an exception that does not derive from
    [Exception] is not caught by the guard.  When unpickling [model.pkl]
    raises [SystemExit] the run ends with that exception right after the
    first [joblib.load], and no message is rendered. *)
Lemma load_guard_system_exit_refuted :
  exiting_disk "model.pkl" = Raise (mk_exn SystemExit "") /\
  fst (load_guard exiting_disk fresh) = Raise (mk_exn SystemExit "") /\
  fst (run exiting_disk default_request) = Raise (mk_exn SystemExit "") /\
  trace (snd (run exiting_disk default_request)) =
    [EvStatic "css"; EvLoad "model.pkl"] /\
  errors_of (trace (snd (run exiting_disk default_request))) = [].
Proof. repeat split. Qed.

(** C10, amended: the guard catches every exception raised during loading
    that derives from [Exception], whatever its class (not only a missing
    file or a deserialisation error): it sets [model_loaded] to false,
    renders the error message, and the run ends normally.  An exception
    that does not derive from [Exception] ([KeyboardInterrupt],
    [SystemExit], [GeneratorExit]) is not caught and ends the run. *)
Theorem load_guard_catches_Exception :
  forall (disk : string -> outcome pyobj) (w : widgets) (e : exn),
    load_outcome disk = Raise e ->
    (isinstance e Exception = true ->
       load_guard disk fresh =
         (Return (mk_globals None None false),
          mk_session None
            (load_calls disk ++ [EvError (load_error_message e)])) /\
       fst (run disk w) = Return tt) /\
    (isinstance e Exception = false ->
       load_guard disk fresh = (Raise e, mk_session None (load_calls disk)) /\
       run disk w = (Raise e, mk_session None (prologue disk))).
Proof.
  intros disk w e Hl. split; intros He.
  - split.
    + unfold fresh. rewrite load_guard_uncached, Hl, He. reflexivity.
    + rewrite (run_load_caught disk w e Hl He). reflexivity.
  - split.
    + unfold fresh. rewrite load_guard_uncached, Hl, He. reflexivity.
    + apply run_load_escapes; assumption.
Qed.

(** C10 at a concrete input: unpickling raises a [TypeError], neither a
    missing file nor a deserialisation error, and is caught. *)
Lemma load_guard_catches_Exception_witness :
  load_outcome type_error_disk =
    Raise (mk_exn TypeError
             "__init__() missing 1 required positional argument") /\
  fst (load_guard type_error_disk fresh) =
    Return (mk_globals None None false) /\
  fst (run type_error_disk default_request) = Return tt.
Proof.
  split; [reflexivity |].
  destruct (load_guard_catches_Exception type_error_disk default_request
              (mk_exn TypeError
                 "__init__() missing 1 required positional argument")
              eq_refl) as [Hcaught _].
  destruct (Hcaught eq_refl) as [Hg Hr].
  split; [rewrite Hg; reflexivity | exact Hr].
Defined.

(* ================================================================== *)
(** ** The prediction path *)
(* ================================================================== *)

(** C2: with the artifacts loaded and the button clicked, the prediction
    the run renders is the first element of what [model.predict] returns
    on what [scaler.transform] returns on the assembled record; the value
    handed to the result box is that very float, whatever it is (a
    negative one included), and it is also the operand of the three
    conversions. *)
Theorem prediction_is_first_model_output :
  forall (disk : string -> outcome pyobj) (w : widgets) (m sc : pyobj)
         (x : ndarray2) (y : float) (ys : list float),
    load_outcome disk = Return (m, sc) ->
    predict_clicked w = true ->
    py_transform sc (input_df_of w) = Return x ->
    py_predict m x = Return (y :: ys) ->
    fst (run disk w) = Return tt /\
    artifact_calls (trace (snd (run disk w))) =
      [EvTransform (input_df_of w); EvPredict x] /\
    results_of (trace (snd (run disk w))) = [render_result w y] /\
    rb_prediction (render_result w y) = mk_field y ",.0f" /\
    errors_of (trace (snd (run disk w))) = [].
Proof.
  intros disk w m sc x y ys Hl Hc Ht Hp.
  destruct (load_calls_model_once disk) as (_ & _ & Ha & Herr & Hres).
  rewrite (run_predict disk w m sc Hl Hc). cbv zeta. rewrite Ht, Hp.
  read_trace disk. rewrite ?Herr, ?Ha, ?Hres.
  repeat split.
  unfold render_result.
  destruct (condition (sky_cover w) (distance_to_solar_noon w)).
  reflexivity.
Qed.

(** C2 at a concrete input: a model that answers [-5.0]. *)
Lemma prediction_is_first_model_output_witness :
  load_outcome good_disk = Return (negative_model, identity_scaler) /\
  results_of (trace (snd (run good_disk default_request))) =
    [render_result default_request (of_int (-5))] /\
  fld_value (rb_prediction (render_result default_request (of_int (-5)))) =
    S754_finite true 5629499534213120 (-50).
Proof.
  split; [reflexivity |].
  destruct (prediction_is_first_model_output good_disk default_request
              negative_model identity_scaler
              (map (map cell_to_float) (df_rows (input_df_of default_request)))
              (of_int (-5)) [] eq_refl eq_refl eq_refl eq_refl)
    as (_ & _ & Hres & Hfld & _).
  split; [exact Hres | rewrite Hfld; reflexivity].
Defined.

(** The calls a run makes to the artifacts: none, [transform] alone, or
    [transform] then [predict], the first always on the assembled
    record. *)
Lemma run_artifact_calls (disk : string -> outcome pyobj) (w : widgets) :
  let calls := artifact_calls (trace (snd (run disk w))) in
  calls = [] \/
  calls = [EvTransform (input_df_of w)] \/
  exists x, calls = [EvTransform (input_df_of w); EvPredict x].
Proof.
  cbv zeta.
  destruct (load_calls_model_once disk) as (_ & _ & Ha & _ & _).
  destruct (load_outcome disk) as [[m sc] | e] eqn:Hl.
  - destruct (predict_clicked w) eqn:Hc.
    + rewrite (run_predict disk w m sc Hl Hc). cbv zeta.
      destruct (py_transform sc (input_df_of w)) as [x | e].
      * destruct (py_predict m x) as [[| y ys] | e];
          right; right; exists x; read_trace disk; rewrite Ha; reflexivity.
      * right; left. read_trace disk. rewrite Ha. reflexivity.
    + left. rewrite (run_idle disk w m sc Hl Hc).
      read_trace disk. rewrite Ha. reflexivity.
  - left. destruct (isinstance e Exception) eqn:He.
    + rewrite (run_load_caught disk w e Hl He).
      read_trace disk. rewrite Ha. destruct (predict_clicked w); reflexivity.
    + rewrite (run_load_escapes disk w e Hl He).
      read_trace disk. rewrite Ha. reflexivity.
Qed.

(** The result boxes of a run: at most one, rendered from the request
    and the first element of the model's answer. *)
Lemma run_results (disk : string -> outcome pyobj) (w : widgets) :
  let boxes := results_of (trace (snd (run disk w))) in
  boxes = [] \/ exists y, boxes = [render_result w y].
Proof.
  cbv zeta.
  destruct (load_calls_model_once disk) as (_ & _ & _ & _ & Hres).
  destruct (load_outcome disk) as [[m sc] | e] eqn:Hl.
  - destruct (predict_clicked w) eqn:Hc.
    + rewrite (run_predict disk w m sc Hl Hc). cbv zeta.
      destruct (py_transform sc (input_df_of w)) as [x | e].
      * destruct (py_predict m x) as [[| y ys] | e];
          [left | right; exists y | left];
          read_trace disk; rewrite Hres; reflexivity.
      * left. read_trace disk. rewrite Hres. reflexivity.
    + left. rewrite (run_idle disk w m sc Hl Hc).
      read_trace disk. rewrite Hres. reflexivity.
  - left. destruct (isinstance e Exception) eqn:He.
    + rewrite (run_load_caught disk w e Hl He).
      read_trace disk. rewrite Hres.
      destruct (predict_clicked w); reflexivity.
    + rewrite (run_load_escapes disk w e Hl He).
      read_trace disk. rewrite Hres. reflexivity.
Qed.

Lemma In_artifact_calls (ev : event) (t : list event) :
  is_artifact_call ev = true -> In ev t -> In ev (artifact_calls t).
Proof. intros Hev Hin. apply filter_In. split; assumption. Qed.

(** C8, as stated, fails: when [scaler.transform] raises, the script has
    no handler around lines 222-223; the exception leaves the script
    right after the call, nothing of the script's own is shown to the
    user, and the rest of the page is not rendered. *)
Lemma prediction_failure_not_surfaced_refuted :
  load_outcome bad_scaler_disk = Return (negative_model, failing_scaler) /\
  fst (run bad_scaler_disk default_request) =
    Raise (mk_exn ValueError "X has 6 features, but StandardScaler is expecting 5 features as input.") /\
  errors_of (trace (snd (run bad_scaler_disk default_request))) = [] /\
  trace (snd (run bad_scaler_disk default_request)) =
    [EvStatic "css"; EvLoad "model.pkl"; EvLoad "scaler.pkl";
     EvStatic "hero"; EvStatic "form";
     EvTransform (input_df_of default_request)] /\
  ~ surfaced_as_message (run bad_scaler_disk default_request).
Proof.
  repeat split. intros [H _]. discriminate H.
Qed.

(** C8, amended: when [scaler.transform] or [model.predict] raises
    during a predict action the failure is not swallowed: the run ends
    with that very exception, unhandled by the script, having rendered
    neither a result box nor a message of its own. *)
Theorem prediction_failure_propagates :
  forall (disk : string -> outcome pyobj) (w : widgets) (m sc : pyobj)
         (e : exn),
    load_outcome disk = Return (m, sc) ->
    predict_clicked w = true ->
    (py_transform sc (input_df_of w) = Raise e \/
     exists x, py_transform sc (input_df_of w) = Return x /\
               py_predict m x = Raise e) ->
    fst (run disk w) = Raise e /\
    results_of (trace (snd (run disk w))) = [] /\
    errors_of (trace (snd (run disk w))) = [] /\
    ~ surfaced_as_message (run disk w).
Proof.
  intros disk w m sc e Hl Hc Hfail.
  destruct (load_calls_model_once disk) as (_ & _ & _ & Herr & Hres).
  assert (Hrun : fst (run disk w) = Raise e /\
                 results_of (trace (snd (run disk w))) = [] /\
                 errors_of (trace (snd (run disk w))) = []).
  { rewrite (run_predict disk w m sc Hl Hc). cbv zeta.
    destruct Hfail as [Ht | (x & Ht & Hp)]; rewrite Ht; [| rewrite Hp];
      read_trace disk; rewrite ?Herr, ?Hres; repeat split. }
  destruct Hrun as (Ho & Hr & He).
  repeat split; try assumption.
  intros [Hret _]. rewrite Ho in Hret. discriminate Hret.
Qed.

(** C8 at a concrete input: the scaler rejects the frame. *)
Lemma prediction_failure_propagates_witness :
  load_outcome bad_scaler_disk = Return (negative_model, failing_scaler) /\
  predict_clicked default_request = true /\
  raises (fst (run bad_scaler_disk default_request)) = true /\
  results_of (trace (snd (run bad_scaler_disk default_request))) = [].
Proof.
  split; [reflexivity |]. split; [reflexivity |].
  destruct (prediction_failure_propagates bad_scaler_disk default_request
              negative_model failing_scaler
              (mk_exn ValueError "X has 6 features, but StandardScaler is expecting 5 features as input.")
              eq_refl eq_refl (or_introl eq_refl))
    as (Ho & Hr & _).
  split; [rewrite Ho; reflexivity | exact Hr].
Defined.

(* ================================================================== *)
(** ** The assembled record *)
(* ================================================================== *)

(** Whatever frame reaches line 222, the first thing done with it is the
    call to [scaler.transform]: the script inspects neither its columns
    nor its shape. *)
Lemma predict_on_calls_transform_first
    (g : globals) (w : widgets) (frame : DataFrame) (sc : pyobj)
    (s : session) :
  scaler g = Some sc ->
  exists rest,
    trace (snd (predict_on g w frame s)) =
    trace s ++ EvTransform frame :: rest.
Proof.
  intros Hsc. unfold predict_on, call_transform, call_predict, name_lookup,
    getitem0. rewrite Hsc. script_eval.
  destruct (py_transform sc frame) as [x | e]; script_eval;
    [| exists []; reflexivity].
  destruct (model g) as [m |]; script_eval;
    [| exists []; reflexivity].
  destruct (py_predict m x) as [[| y ys] | e]; script_eval;
    eexists; repeat rewrite <- app_assoc; cbn [app]; reflexivity.
Qed.

(** C3: the assembled record has one row and the six columns
    distance_to_solar_noon, temperature, sky_cover, visibility, humidity,
    wind_speed in this order, holding the widgets' values; it is the only
    frame a run passes to [scaler.transform]; and the script checks
    nothing about a frame before that call. *)
Theorem input_df_column_order :
  forall (w : widgets),
    df_columns (input_df_of w) =
      ["distance_to_solar_noon"; "temperature"; "sky_cover"; "visibility";
       "humidity"; "wind_speed"] /\
    df_rows (input_df_of w) =
      [[CFloat (distance_to_solar_noon w); CFloat (temperature w);
        CInt (sky_cover w); CFloat (visibility w); CInt (humidity w);
        CFloat (wind_speed w)]] /\
    shape (input_df_of w) = (1%nat, 6%nat) /\
    (forall disk df,
        In (EvTransform df) (trace (snd (run disk w))) ->
        df = input_df_of w) /\
    (forall g sc frame s,
        scaler g = Some sc ->
        exists rest,
          trace (snd (predict_on g w frame s)) =
          trace s ++ EvTransform frame :: rest).
Proof.
  intros w. repeat split.
  - intros disk df Hin.
    apply (In_artifact_calls (EvTransform df) _ eq_refl) in Hin.
    destruct (run_artifact_calls disk w) as [H | [H | [x H]]];
      cbv zeta in H; rewrite H in Hin; cbn in Hin.
    + contradiction.
    + destruct Hin as [Heq | []]. injection Heq as <-. reflexivity.
    + destruct Hin as [Heq | [Heq | []]]; [| discriminate Heq].
      injection Heq as <-. reflexivity.
  - intros g sc frame s Hsc.
    apply predict_on_calls_transform_first with (sc := sc). exact Hsc.
Qed.

(* ================================================================== *)
(** ** Determinism *)
(* ================================================================== *)

Lemma skipn_length_app {A : Type} (t u : list A) :
  skipn (List.length t) (t ++ u) = u.
Proof. induction t as [| a t IH]; [reflexivity | exact IH]. Qed.

(** The predict step is a function of the loaded artifacts and of the
    frame and request it is given: its outcome and the events it adds are
    the same from every session, and it leaves the cache alone. *)
Lemma predict_on_session_independent
    (g : globals) (w : widgets) (frame : DataFrame) :
  exists (o : outcome unit) (delta : list event),
    (forall s : session,
        predict_on g w frame s =
        (o, mk_session (resource_cache s) (trace s ++ delta))) /\
    (forall path, loads_of path delta = 0%nat).
Proof.
  unfold predict_on, call_transform, call_predict, name_lookup, getitem0.
  destruct (scaler g) as [sc |]; script_eval.
  2:{ eexists _, []. split; [| reflexivity].
      intros [c t]. rewrite app_nil_r. reflexivity. }
  destruct (py_transform sc frame) as [x | e].
  2:{ eexists _, _. split; [intros s; script_eval; reflexivity |].
      reflexivity. }
  destruct (model g) as [m |].
  2:{ eexists _, _. split; [intros s; script_eval; reflexivity |].
      reflexivity. }
  destruct (py_predict m x) as [[| y ys] | e];
    eexists _, _;
    (split; [intros s; script_eval;
             repeat rewrite <- app_assoc; cbn [app]; reflexivity
            | reflexivity]).
Qed.

(** The frame and the result box read the six fields only. *)
Lemma request_fields_only (w : widgets) (b : bool) :
  input_df_of (with_button w b) = input_df_of w /\
  forall y, render_result (with_button w b) y = render_result w y.
Proof. destruct w; split; reflexivity. Qed.

(** So is the whole page below the guard. *)
Lemma page_session_independent (g : globals) (w : widgets) :
  exists (o : outcome unit) (delta : list event),
    (forall s : session,
        page g w s = (o, mk_session (resource_cache s) (trace s ++ delta))) /\
    (forall path, loads_of path delta = 0%nat).
Proof.
  destruct (predict_on_session_independent g w (input_df_of w))
    as (o & delta & Hp & Hnl).
  unfold page, predict_branch.
  destruct (predict_clicked w && model_loaded g).
  - destruct o as [[] | e]; eexists _, _;
      (split; [intros s; script_eval; rewrite Hp; script_eval;
               repeat rewrite <- app_assoc; cbn [app]; reflexivity |]);
      intros path; specialize (Hnl path); unfold loads_of in *;
      cbn [filter is_load]; rewrite ?filter_app, ?length_app, ?Hnl;
      reflexivity.
  - destruct (predict_clicked w && negb (model_loaded g));
      eexists _, _;
      (split; [intros s; script_eval;
               repeat rewrite <- app_assoc; cbn [app]; reflexivity
              | reflexivity]).
Qed.

(** With a cached pair the guard binds it and touches no file. *)
Lemma load_guard_cached
    (disk : string -> outcome pyobj) (m sc : pyobj) (t : list event) :
  load_guard disk (mk_session (Some (m, sc)) t) =
  (Return (mk_globals (Some m) (Some sc) true), mk_session (Some (m, sc)) t).
Proof. reflexivity. Qed.

(** C9: two predict invocations on the same six field values and the same
    loaded artifacts, started from any two sessions (whatever was cached
    or rendered before, whatever the button's state is recorded as), end
    with the same outcome and add the same events: the same calls to the
    artifacts and the same result box, hence the same raw prediction,
    derived values and condition.  In particular a second run of the
    script in the process of a first one that loaded the artifacts uses
    the cached pair, whatever the files have become, and ends and renders
    as the first did. *)
Theorem predict_deterministic :
  (forall (g : globals) (w : widgets) (b : bool) (s1 s2 : session),
      let r1 := predict_branch g w s1 in
      let r2 := predict_branch g (with_button w b) s2 in
      fst r1 = fst r2 /\
      added s1 r1 = added s2 r2 /\
      results_of (added s1 r1) = results_of (added s2 r2) /\
      resource_cache (snd r1) = resource_cache s1 /\
      resource_cache (snd r2) = resource_cache s2) /\
  (forall (disk disk' : string -> outcome pyobj) (w : widgets)
          (m sc : pyobj),
      load_outcome disk = Return (m, sc) ->
      let r1 := run disk w in
      let r2 := script disk' w (mk_session (resource_cache (snd r1)) []) in
      fst r1 = fst r2 /\
      results_of (trace (snd r1)) = results_of (trace (snd r2)) /\
      artifact_calls (trace (snd r1)) = artifact_calls (trace (snd r2)) /\
      loads_of "model.pkl" (trace (snd r2)) = 0%nat /\
      loads_of "scaler.pkl" (trace (snd r2)) = 0%nat).
Proof.
  split.
  - intros g w b s1 s2. cbv zeta. unfold predict_branch, added.
    destruct (request_fields_only w b) as [Hdf _]. rewrite Hdf.
    destruct (predict_on_session_independent g w (input_df_of w))
      as (o & delta & H1 & _).
    assert (Hsame : predict_on g (with_button w b) (input_df_of w) s2 =
                    predict_on g w (input_df_of w) s2).
    { unfold predict_on. destruct w; reflexivity. }
    rewrite Hsame, (H1 s1), (H1 s2). cbn [fst snd trace resource_cache].
    rewrite !skipn_length_app. repeat split.
  - intros disk disk' w m sc Hl. cbv zeta.
    destruct (load_calls_model_once disk) as (_ & _ & Ha & _ & Hres).
    destruct (page_session_independent
                (mk_globals (Some m) (Some sc) true) w)
      as (o & delta & Hp & Hnl).
    assert (H1 : run disk w =
                 (o, mk_session (Some (m, sc)) (prologue disk ++ delta))).
    { rewrite run_unfold. unfold bind. rewrite load_guard_uncached, Hl.
      rewrite Hp. reflexivity. }
    rewrite H1. cbn [fst snd resource_cache trace].
    assert (H2 : script disk' w (mk_session (Some (m, sc)) []) =
                 (o, mk_session (Some (m, sc)) ([EvStatic "css"] ++ delta))).
    { unfold script, bind at 1. cbn [emit app trace resource_cache].
      unfold bind. rewrite load_guard_cached, Hp. reflexivity. }
    rewrite H2. cbn [fst snd trace]. unfold prologue.
    change (EvStatic "css" :: load_calls disk)
      with ([EvStatic "css"] ++ load_calls disk).
    rewrite ?results_of_app, ?artifact_calls_app, ?loads_of_app, ?Ha, ?Hres,
      ?Hnl.
    repeat split.
Qed.

(* ================================================================== *)
(** ** Comparing floats *)
(* ================================================================== *)

(** A positive number of [d] binary digits lies in [[2^(d-1), 2^d)]. *)
Lemma digits2_pos_bounds (m : positive) :
  2 ^ (Zpos (digits2_pos m) - 1) <= Zpos m < 2 ^ Zpos (digits2_pos m).
Proof.
  induction m as [m IH | m IH |]; cbn [digits2_pos].
  - rewrite Pos2Z.inj_succ.
    replace (Z.succ (Zpos (digits2_pos m)) - 1) with (Zpos (digits2_pos m) - 1 + 1) by lia.
    rewrite Z.pow_succ_r by lia. rewrite Z.pow_add_r by lia. lia.
  - rewrite Pos2Z.inj_succ.
    replace (Z.succ (Zpos (digits2_pos m)) - 1) with (Zpos (digits2_pos m) - 1 + 1) by lia.
    rewrite Z.pow_succ_r by lia. rewrite Z.pow_add_r by lia. lia.
  - cbn. lia.
Qed.

(** Conversely the binade decides the number of digits. *)
Lemma digits2_pos_unique (m : positive) (k : Z) :
  2 ^ (k - 1) <= Zpos m < 2 ^ k -> Zpos (digits2_pos m) = k.
Proof.
  intros [Hlo Hhi]. pose proof (digits2_pos_bounds m) as [Dlo Dhi].
  set (d := Zpos (digits2_pos m)) in *.
  assert (0 < d) by (unfold d; lia).
  destruct (Z.lt_trichotomy d k) as [Hlt | [Heq | Hgt]]; [| exact Heq |].
  - assert (2 ^ d <= 2 ^ (k - 1)) by (apply Z.pow_le_mono_r; lia). lia.
  - assert (0 <= k).
    { destruct (Z.lt_ge_cases k 0) as [Hneg | ?]; [| assumption].
      rewrite (Z.pow_neg_r 2 k Hneg) in Hhi. lia. }
    assert (2 ^ k <= 2 ^ (d - 1)) by (apply Z.pow_le_mono_r; lia). lia.
Qed.

(** A valid finite float: exponent in range, at most 53 digits, all 53 of
    them unless the exponent is the smallest. *)
Lemma valid_finite_bounds (s : bool) (m : positive) (e : Z) :
  valid (S754_finite s m e) = true ->
  -1074 <= e <= 971 /\ Zpos m < 2 ^ 53 /\ (-1074 < e -> 2 ^ 52 <= Zpos m).
Proof.
  unfold valid, valid_binary, bounded, canonical_mantissa, fexp, emin, prec, emax.
  rewrite andb_true_iff, Z.eqb_eq, Z.leb_le. intros [Hc He].
  pose proof (digits2_pos_bounds m) as [Dlo Dhi].
  set (d := Zpos (digits2_pos m)) in *.
  assert (Hd : 0 < d <= 53) by (unfold d; lia).
  split; [lia |]. split.
  - assert (2 ^ d <= 2 ^ 53) by (apply Z.pow_le_mono_r; lia). lia.
  - intros Hn. assert (d = 53) by lia.
    replace (d - 1) with 52 in Dlo by lia. exact Dlo.
Qed.

Lemma units_finite_pos (m : positive) (e : Z) :
  -1074 <= e -> 0 < Zpos m * 2 ^ (e + 1074).
Proof.
  intros He. assert (0 < 2 ^ (e + 1074)) by (apply Z.pow_pos_nonneg; lia). lia.
Qed.

(** On valid floats of one sign, comparing exponents first and mantissas
    next compares the values. *)
Lemma compare_magnitudes (m1 m2 : positive) (e1 e2 : Z) :
  valid (S754_finite false m1 e1) = true ->
  valid (S754_finite false m2 e2) = true ->
  match e1 ?= e2 with
  | Lt => Lt
  | Gt => Gt
  | Eq => Pos.compare_cont Eq m1 m2
  end = (Zpos m1 * 2 ^ (e1 + 1074) ?= Zpos m2 * 2 ^ (e2 + 1074)).
Proof.
  intros H1 H2.
  destruct (valid_finite_bounds _ _ _ H1) as (He1 & Hm1 & Hn1).
  destruct (valid_finite_bounds _ _ _ H2) as (He2 & Hm2 & Hn2).
  assert (Hstep : forall ma mb ea eb,
             -1074 <= ea -> ea < eb -> Zpos ma < 2 ^ 53 -> 2 ^ 52 <= Zpos mb ->
             Zpos ma * 2 ^ (ea + 1074) < Zpos mb * 2 ^ (eb + 1074)).
  { intros ma mb ea eb Ha Hab Hma Hmb.
    assert (Hp : 0 < 2 ^ (ea + 1074)) by (apply Z.pow_pos_nonneg; lia).
    assert (Hle : 2 ^ (ea + 1 + 1074) <= 2 ^ (eb + 1074))
      by (apply Z.pow_le_mono_r; lia).
    replace (ea + 1 + 1074) with (ea + 1074 + 1) in Hle by lia.
    rewrite Z.pow_add_r, Z.pow_1_r in Hle by lia.
    change (2 ^ 53) with (2 * 2 ^ 52) in Hma.
    assert (0 < 2 ^ 52) by reflexivity. nia. }
  symmetry. destruct (Z.compare_spec e1 e2) as [Heq | Hlt | Hgt].
  - subst e2.
    assert (Hp : 0 < 2 ^ (e1 + 1074)) by (apply Z.pow_pos_nonneg; lia).
    change (Pos.compare_cont Eq m1 m2) with (Zpos m1 ?= Zpos m2).
    destruct (Z.compare_spec (Zpos m1) (Zpos m2)) as [E | L | G].
    + rewrite E. apply Z.compare_refl.
    + apply Z.compare_lt_iff. nia.
    + apply Z.compare_gt_iff. nia.
  - apply Z.compare_lt_iff. apply Hstep; lia.
  - apply Z.compare_gt_iff. apply Hstep; lia.
Qed.

Lemma compare_antisym_opp (a b : Z) : CompOpp (a ?= b) = (- a ?= - b).
Proof. rewrite Z.compare_opp. symmetry. apply Z.compare_antisym. Qed.

(** [<] on valid finite floats is [<] on their values. *)
Lemma flt_compares_values (a b : float) :
  valid a = true -> valid b = true ->
  is_finite a = true -> is_finite b = true ->
  flt a b = (units a <? units b).
Proof.
  intros Va Vb Fa Fb. unfold flt, SFltb, Z.ltb.
  destruct a as [sa | sa | | sa ma ea]; try discriminate Fa;
    destruct b as [sb | sb | | sb mb eb]; try discriminate Fb;
    cbn [SFcompare units].
  - reflexivity.
  - destruct (valid_finite_bounds _ _ _ Vb) as (He & _ & _).
    pose proof (units_finite_pos mb eb) as Hp.
    destruct sb; cbn [cond_Zopp].
    + destruct (Z.compare_spec 0 (- (Zpos mb * 2 ^ (eb + 1074)))); try reflexivity; lia.
    + destruct (Z.compare_spec 0 (Zpos mb * 2 ^ (eb + 1074))); try reflexivity; lia.
  - destruct (valid_finite_bounds _ _ _ Va) as (He & _ & _).
    pose proof (units_finite_pos ma ea) as Hp.
    destruct sa; cbn [cond_Zopp].
    + destruct (Z.compare_spec (- (Zpos ma * 2 ^ (ea + 1074))) 0); try reflexivity; lia.
    + destruct (Z.compare_spec (Zpos ma * 2 ^ (ea + 1074)) 0); try reflexivity; lia.
  - destruct (valid_finite_bounds _ _ _ Va) as (Hea & _ & _).
    destruct (valid_finite_bounds _ _ _ Vb) as (Heb & _ & _).
    pose proof (units_finite_pos ma ea) as Hpa.
    pose proof (units_finite_pos mb eb) as Hpb.
    destruct sa, sb; cbn [cond_Zopp].
    + rewrite <- compare_antisym_opp.
      rewrite <- (compare_magnitudes ma mb ea eb Va Vb).
      destruct (ea ?= eb); reflexivity.
    + destruct (Z.compare_spec (- (Zpos ma * 2 ^ (ea + 1074))) (Zpos mb * 2 ^ (eb + 1074))); try reflexivity; lia.
    + destruct (Z.compare_spec (Zpos ma * 2 ^ (ea + 1074)) (- (Zpos mb * 2 ^ (eb + 1074)))); try reflexivity; lia.
    + rewrite <- (compare_magnitudes ma mb ea eb Va Vb). reflexivity.
Qed.

(** The two literals of lines 229 and 232 as binary64 values. *)
Lemma threshold_literals :
  of_decimal 3 1 = S754_finite false 5404319552844595 (-54) /\
  of_decimal 12 1 = S754_finite false 5404319552844595 (-52).
Proof. split; reflexivity. Qed.

(** On the values a slider can return the two tests of the script compare
    the distance with the binary64 values of 0.3 and 1.2. *)
Lemma thresholds_compare_values (d : float) :
  valid d = true -> is_finite d = true ->
  flt d (of_decimal 3 1) = (units d <? 5404319552844595 * 2 ^ 1020) /\
  fgt d (of_decimal 12 1) = (5404319552844595 * 2 ^ 1022 <? units d).
Proof.
  intros Hv Hf. destruct threshold_literals as [-> ->]. unfold fgt. split.
  - rewrite (flt_compares_values d (S754_finite false 5404319552844595 (-54))
               Hv eq_refl Hf eq_refl).
    reflexivity.
  - change (SFltb (S754_finite false 5404319552844595 (-52)) d)
      with (flt (S754_finite false 5404319552844595 (-52)) d).
    rewrite (flt_compares_values (S754_finite false 5404319552844595 (-52)) d
               eq_refl Hv eq_refl Hf).
    reflexivity.
Qed.

(* ================================================================== *)
(** ** The condition label *)
(* ================================================================== *)

(** The condition the script computes is the text of the label the
    three rules give, first match first. *)
Lemma condition_by_rules (sky : Z) (d : float) :
  condition sky d =
  label_text
    (if (sky =? 0) && flt d (of_decimal 3 1) then IDEAL
     else if (3 <=? sky) || fgt d (of_decimal 12 1) then LOW
     else MODERATE).
Proof.
  unfold condition. rewrite Z.geb_leb.
  destruct ((sky =? 0) && flt d (of_decimal 3 1)); [reflexivity |].
  destruct ((3 <=? sky) || fgt d (of_decimal 12 1)); reflexivity.
Qed.

Lemma rule_ideal_decide (sky : Z) (d : float) :
  (sky =? 0) && flt d (of_decimal 3 1) = true <-> rule_ideal sky d.
Proof.
  unfold rule_ideal. rewrite andb_true_iff, Z.eqb_eq. reflexivity.
Qed.

Lemma rule_low_decide (sky : Z) (d : float) :
  (3 <=? sky) || fgt d (of_decimal 12 1) = true <-> rule_low sky d.
Proof.
  unfold rule_low. rewrite orb_true_iff, Z.leb_le.
  split; (intros [H | H]; [left; lia | right; exact H]).
Qed.

(** C1: the condition is IDEAL exactly when sky_cover == 0 and
    distance_to_solar_noon < 0.3; otherwise LOW exactly when
    sky_cover >= 3 or distance_to_solar_noon > 1.2; otherwise MODERATE.
    With sky_cover = 0 and a distance of exactly 0.30 it is MODERATE, not
    IDEAL.  The condition a run renders is the one these two fields
    give, whatever the artifacts are and whatever the model predicts. *)
Theorem condition_priority_order :
  (forall (sky : Z) (d : float),
      (condition sky d = label_text IDEAL <-> rule_ideal sky d) /\
      (condition sky d = label_text LOW <->
         ~ rule_ideal sky d /\ rule_low sky d) /\
      (condition sky d = label_text MODERATE <->
         ~ rule_ideal sky d /\ ~ rule_low sky d)) /\
  condition 0 (of_decimal 30 2) = label_text MODERATE /\
  (forall (disk : string -> outcome pyobj) (w : widgets) (rb : result_box),
      In rb (results_of (trace (snd (run disk w)))) ->
      (rb_condition rb, rb_color_hint rb) =
        condition (sky_cover w) (distance_to_solar_noon w)) /\
  (forall (w : widgets) (y y' : float),
      rb_condition (render_result w y) = rb_condition (render_result w y') /\
      rb_color_hint (render_result w y) = rb_color_hint (render_result w y')).
Proof.
  split; [| split; [reflexivity | split]].
  - intros sky d. rewrite condition_by_rules.
    rewrite <- rule_ideal_decide, <- rule_low_decide.
    destruct ((sky =? 0) && flt d (of_decimal 3 1));
      destruct ((3 <=? sky) || fgt d (of_decimal 12 1));
      cbn [label_text]; repeat split;
      try discriminate; try reflexivity;
      try (intros [H1 H2]; first [discriminate H2 | exfalso; apply H1; reflexivity
                                 | exfalso; apply H2; reflexivity]);
      try (intros H; discriminate H).
  - intros disk w rb Hin.
    destruct (run_results disk w) as [H | [y H]]; cbv zeta in H;
      rewrite H in Hin; cbn in Hin; [contradiction |].
    destruct Hin as [<- | []]. unfold render_result.
    destruct (condition (sky_cover w) (distance_to_solar_noon w)).
    reflexivity.
  - intros w y y'. unfold render_result.
    destruct (condition (sky_cover w) (distance_to_solar_noon w)).
    split; reflexivity.
Qed.

(** The boundary cases the specification lists. *)
Example condition_boundaries :
  condition 0 (of_decimal 29 2) = label_text IDEAL /\
  condition 0 (of_decimal 30 2) = label_text MODERATE /\
  condition 3 (of_decimal 1 1) = label_text LOW /\
  condition 2 (of_decimal 121 2) = label_text LOW /\
  condition 1 (of_decimal 5 1) = label_text MODERATE.
Proof. repeat split. Qed.

(* ================================================================== *)
(** ** Unit conversions *)
(* ================================================================== *)

(** The three integer constants of lines 226, 252 and 256 convert to
    floats without error. *)
Lemma conversion_constants :
  of_int 3600000 = S754_finite false 7730941132800000 (-31) /\
  of_int 1000 = S754_finite false 8796093022208000 (-43) /\
  of_int 8 = S754_finite false 4503599627370496 (-49) /\
  7730941132800000 = 3600000 * 2 ^ 31 /\
  8796093022208000 = 1000 * 2 ^ 43 /\
  4503599627370496 = 8 * 2 ^ 49.
Proof. repeat split. Qed.


(* ================================================================== *)
(** ** Rounding to nearest in [SpecFloat] *)
(* ================================================================== *)

(** One step of the right shift halves the mantissa, keeps the bit
    shifted out as round bit and folds the old round bit into the sticky
    bit. *)
Lemma shr_1_spec (mrs : shr_record) :
  0 <= shr_m mrs ->
  shr_m mrs = 2 * shr_m (shr_1 mrs) + (if shr_r (shr_1 mrs) then 1 else 0) /\
  0 <= shr_m (shr_1 mrs) /\
  shr_s (shr_1 mrs) = shr_r mrs || shr_s mrs.
Proof.
  destruct mrs as [m r s]. cbn [shr_m]. intros Hm.
  destruct m as [| p | p]; [| | lia].
  - cbn. repeat split; lia.
  - destruct p; cbn; repeat split; lia.
Qed.

Lemma loc_of_shr_record_of_loc (m : Z) (l : location) :
  loc_of_shr_record (shr_record_of_loc m l) = l /\
  shr_m (shr_record_of_loc m l) = m.
Proof. destruct l as [| []]; split; reflexivity. Qed.

(** One shift step keeps the exact value located, at twice the scale. *)
Lemma located_shr_1 (V D : Z) (mrs : shr_record) :
  0 < D ->
  located V D (shr_m mrs) (loc_of_shr_record mrs) ->
  located V (2 * D) (shr_m (shr_1 mrs)) (loc_of_shr_record (shr_1 mrs)).
Proof.
  intros HD (Hm & HN & Hloc).
  destruct (shr_1_spec mrs Hm) as (Hdiv & Hm' & Hs).
  destruct (shr_1 mrs) as [m' r' s']. destruct mrs as [m r s].
  cbn [shr_m shr_r shr_s loc_of_shr_record] in *. subst s'.
  unfold located.
  destruct r, s, r'; cbn [orb loc_of_shr_record] in *;
    repeat match goal with
           | H : _ /\ _ |- _ => destruct H
           | H : (_ ?= _) = _ |- _ => first [apply Z.compare_eq in H | apply Z.compare_lt_iff in H | apply Z.compare_gt_iff in H]
           end;
    repeat split; try lia;
    first [apply Z.compare_eq_iff | apply Z.compare_lt_iff | apply Z.compare_gt_iff]; lia.
Qed.

(** An invariant indexed by the number of steps survives [iter_pos]. *)
Lemma iter_pos_invariant {A : Type} (f : A -> A) (P : Z -> A -> Prop) :
  (forall k x, 0 <= k -> P k x -> P (k + 1) (f x)) ->
  forall (n : positive) (k : Z) (x : A),
    0 <= k -> P k x -> P (k + Zpos n) (iter_pos f n x).
Proof.
  intros Hstep. induction n as [n IH | n IH |]; intros k x Hk HP; cbn [iter_pos].
  - replace (k + Zpos n~1) with (k + 1 + Zpos n + Zpos n) by lia.
    apply IH; [lia |]. apply IH; [lia |]. apply Hstep; assumption.
  - replace (k + Zpos n~0) with (k + Zpos n + Zpos n) by lia.
    apply IH; [lia |]. apply IH; assumption.
  - apply Hstep; assumption.
Qed.

(** Shifting right by [n] keeps the exact value located at scale
    [2^n * D]. *)
Lemma located_shr (V D : Z) (mrs : shr_record) (e n : Z) :
  0 < D -> 0 <= n ->
  located V D (shr_m mrs) (loc_of_shr_record mrs) ->
  located V (2 ^ n * D) (shr_m (fst (shr mrs e n)))
          (loc_of_shr_record (fst (shr mrs e n))) /\
  snd (shr mrs e n) = e + n.
Proof.
  intros HD Hn Hloc. destruct n as [| p | p]; [| | lia].
  - cbn [shr fst snd]. rewrite Z.pow_0_r, Z.mul_1_l. split; [exact Hloc | lia].
  - cbn [shr fst snd]. split; [| reflexivity].
    pose (P := fun k mrs' => located V (2 ^ k * D) (shr_m mrs') (loc_of_shr_record mrs')).
    change (P (0 + Zpos p) (iter_pos shr_1 p mrs)).
    apply iter_pos_invariant; [| lia |].
    + intros k x Hk HP. unfold P in *.
      rewrite Z.pow_add_r, Z.pow_1_r by lia.
      replace (2 ^ k * 2 * D) with (2 * (2 ^ k * D)) by ring.
      apply located_shr_1; [| exact HP].
      assert (0 < 2 ^ k) by (apply Z.pow_pos_nonneg; lia). lia.
    + unfold P. rewrite Z.pow_0_r, Z.mul_1_l. exact Hloc.
Qed.

(** Rounding to nearest picks a neighbour at most half a unit away. *)
Lemma round_nearest_even_spec (V D m : Z) (l : location) :
  0 < D -> located V D m l ->
  (round_nearest_even m l = m \/ round_nearest_even m l = m + 1) /\
  2 * Z.abs (round_nearest_even m l * D - V) <= D.
Proof.
  intros HD (Hm & HN & Hloc).
  destruct l as [| c]; cbn [round_nearest_even].
  - split; [left; reflexivity | lia].
  - destruct Hloc as [Hpos Hc]. destruct c; cbv beta iota.
    + apply Z.compare_eq in Hc. destruct (Z.even m); split; auto; lia.
    + rewrite Z.compare_lt_iff in Hc. split; [left; reflexivity | lia].
    + rewrite Z.compare_gt_iff in Hc. split; [right; reflexivity | lia].
Qed.

Section NormalRange.

Variables pr em : Z.
Hypothesis Hpr : 0 < pr.

Lemma fexp_normal (e : Z) :
  emin pr em <= e - pr -> fexp pr em e = e - pr.
Proof. unfold fexp. lia. Qed.

(** The rounding of a located value in the normal range, away from
    overflow: the result is finite with a full mantissa, and its relative
    error is at most [2^-pr]. *)
Lemma binary_round_aux_normal
    (sx : bool) (p : positive) (ex : Z) (lx : location) (V D : Z) :
  0 < D ->
  located V D (Zpos p) lx ->
  pr <= Zpos (digits2_pos p) ->
  emin pr em <= Zpos (digits2_pos p) + ex - pr ->
  Zpos (digits2_pos p) + ex + 1 <= em ->
  exists (m2 : positive) (k : Z),
    binary_round_aux pr em sx (Zpos p) ex lx = S754_finite sx m2 (ex + k) /\
    Zpos (digits2_pos p) - pr <= k <= Zpos (digits2_pos p) - pr + 1 /\
    Zpos (digits2_pos m2) = pr /\
    2 ^ pr * Z.abs (Zpos m2 * 2 ^ k * D - V) <= V.
Proof.
  intros HD Hloc Hd Hnorm Hover.
  set (d := Zpos (digits2_pos p)) in *.
  set (n := d - pr).
  assert (Hn : 0 <= n) by (unfold n; lia).
  pose proof (digits2_pos_bounds p) as [Dlo Dhi]. fold d in Dlo, Dhi.
  (* first shift *)
  unfold binary_round_aux, shr_fexp. cbn [Zdigits2]. fold d.
  rewrite (fexp_normal (d + ex)) by lia.
  replace (d + ex - pr - ex) with n by (unfold n; lia).
  destruct (loc_of_shr_record_of_loc (Zpos p) lx) as [Hl0 Hm0].
  assert (Hloc0 : located V D (shr_m (shr_record_of_loc (Zpos p) lx))
                    (loc_of_shr_record (shr_record_of_loc (Zpos p) lx)))
    by (rewrite Hl0, Hm0; exact Hloc).
  destruct (located_shr V D _ ex n HD Hn Hloc0) as [Hloc1 He1].
  destruct (shr (shr_record_of_loc (Zpos p) lx) ex n) as [mrs1 e1].
  cbn [fst snd] in Hloc1, He1. subst e1.
  set (m1 := shr_m mrs1) in *. set (l1 := loc_of_shr_record mrs1) in *.
  set (Dn := 2 ^ n * D) in *.
  assert (HP : 0 < 2 ^ pr) by (apply Z.pow_pos_nonneg; lia).
  assert (HPh : 2 ^ pr = 2 * 2 ^ (pr - 1)).
  { replace pr with (pr - 1 + 1) at 1 by lia.
    rewrite Z.pow_add_r by lia. rewrite Z.pow_1_r. ring. }
  assert (H2n : 0 < 2 ^ n) by (apply Z.pow_pos_nonneg; lia).
  assert (HDn : 0 < Dn) by (unfold Dn; lia).
  assert (Hdn : 2 ^ d = 2 ^ pr * 2 ^ n).
  { unfold n. rewrite <- Z.pow_add_r by lia. f_equal. lia. }
  assert (Hdn1 : 2 ^ (d - 1) = 2 ^ (pr - 1) * 2 ^ n).
  { unfold n. rewrite <- Z.pow_add_r by lia. f_equal. lia. }
  (* the bounds on V *)
  destruct Hloc as (_ & HN0 & _).
  assert (HVlo : 2 ^ (pr - 1) * Dn <= V).
  { unfold Dn. rewrite Z.mul_assoc, <- Hdn1. nia. }
  assert (HVhi : V < 2 ^ pr * Dn).
  { unfold Dn. rewrite Z.mul_assoc, <- Hdn. nia. }
  (* the truncated mantissa has [pr] digits *)
  pose proof Hloc1 as (Hm1 & HN1 & _).
  assert (Hm1lo : 2 ^ (pr - 1) <= m1) by nia.
  assert (Hm1hi : m1 < 2 ^ pr) by nia.
  (* rounding *)
  destruct (round_nearest_even_spec V Dn m1 l1 HDn Hloc1) as [Hcase Herr].
  set (m2 := round_nearest_even m1 l1) in *.
  assert (Hm2lo : 2 ^ (pr - 1) <= m2) by lia.
  assert (Hm2hi : m2 <= 2 ^ pr) by lia.
  destruct m2 as [| q |] eqn:Hq; [lia | | lia].
  destruct (Z.eq_dec (Zpos q) (2 ^ pr)) as [Hcarry | Hnocarry].
  - (* the rounding carried into a new binade *)
    assert (Hdq : Zpos (digits2_pos q) = pr + 1).
    { apply digits2_pos_unique. replace (pr + 1 - 1) with pr by lia.
      rewrite Z.pow_add_r, Z.pow_1_r by lia. lia. }
    cbn [Zdigits2]. rewrite Hdq.
    rewrite (fexp_normal (pr + 1 + (ex + n))) by (unfold n; lia).
    replace (pr + 1 + (ex + n) - pr - (ex + n)) with 1 by lia.
    cbn [shr shr_record_of_loc iter_pos fst snd].
    destruct (shr_1_spec (Build_shr_record (Zpos q) false false))
      as (Hdiv & Hnn & _); [cbn; lia |].
    cbn [shr_m] in Hdiv.
    destruct (shr_1 (Build_shr_record (Zpos q) false false)) as [m3 r3 s3].
    cbn [shr_m shr_r] in *.
    assert (Hm3 : m3 = 2 ^ (pr - 1)) by (destruct r3; lia).
    destruct m3 as [| q3 |]; [lia | | lia].
    assert (Hle : (ex + n + 1 <=? em - pr) = true)
      by (apply Z.leb_le; unfold n; lia).
    rewrite Hle.
    exists q3, (n + 1). repeat split.
    + f_equal. lia.
    + unfold n. lia.
    + unfold n. lia.
    + apply digits2_pos_unique. rewrite Hm3.
      replace (pr - 1 + 1) with pr by lia. lia.
    + rewrite Hm3. rewrite Z.pow_add_r, Z.pow_1_r by lia.
      replace (2 ^ (pr - 1) * (2 ^ n * 2) * D) with (2 ^ pr * Dn)
        by (unfold Dn; rewrite HPh; ring).
      rewrite <- Hcarry. nia.
  - assert (Hdq : Zpos (digits2_pos q) = pr).
    { apply digits2_pos_unique. lia. }
    cbn [Zdigits2]. rewrite Hdq.
    rewrite (fexp_normal (pr + (ex + n))) by (unfold n; lia).
    replace (pr + (ex + n) - pr - (ex + n)) with 0 by lia.
    cbn [shr shr_record_of_loc shr_m].
    assert (Hle : (ex + n <=? em - pr) = true)
      by (apply Z.leb_le; unfold n; lia).
    rewrite Hle.
    exists q, n. repeat split.
    + unfold n. lia.
    + unfold n. lia.
    + exact Hdq.
    + fold Dn. replace (Zpos q * 2 ^ n * D) with (Zpos q * Dn)
        by (unfold Dn; ring). nia.
Qed.

(** The location the division computes from the remainder. *)
Lemma new_location_spec (D r : Z) :
  0 < D -> 0 <= r < D ->
  match new_location D r with
  | loc_Exact => r = 0
  | loc_Inexact c => 0 < r /\ (2 * r ?= D) = c
  end.
Proof.
  intros HD Hr. unfold new_location, new_location_even, new_location_odd.
  destruct (Z.even D) eqn:Hev; destruct (Z.eqb_spec r 0) as [Hz | Hnz];
    try exact Hz.
  - split; [lia | reflexivity].
  - split; [lia |].
    assert (Hodd : Z.odd D = true) by (rewrite <- Z.negb_even, Hev; reflexivity).
    apply Z.odd_spec in Hodd. destruct Hodd as [h Hh].
    destruct (Z.compare_spec (2 * r + 1) D) as [He | Hl | Hg].
    + apply Z.compare_lt_iff. lia.
    + apply Z.compare_lt_iff. lia.
    + apply Z.compare_gt_iff. lia.
Qed.

Lemma pow2_split (a : Z) : 0 < a -> 2 ^ a = 2 * 2 ^ (a - 1).
Proof.
  intros Ha. replace a with (a - 1 + 1) at 1 by lia.
  rewrite Z.pow_add_r, Z.pow_1_r by lia. ring.
Qed.

Lemma normal_mantissa_bounds (m : positive) :
  normal_mantissa pr m -> 2 ^ (pr - 1) <= Zpos m < 2 ^ pr.
Proof. intros H. pose proof (digits2_pos_bounds m). rewrite H in *. lia. Qed.

(** The product of two normal floats, in the normal range: relative
    error at most [2^-pr]. *)
Lemma SFmul_normal (sx sy : bool) (mx my : positive) (ex ey : Z) :
  normal_mantissa pr mx -> normal_mantissa pr my ->
  emin pr em <= pr - 1 + ex + ey ->
  2 * pr + ex + ey + 1 <= em ->
  exists (m2 : positive) (k : Z),
    SFmul pr em (S754_finite sx mx ex) (S754_finite sy my ey) =
      S754_finite (xorb sx sy) m2 (ex + ey + k) /\
    pr - 1 <= k <= pr + 1 /\
    normal_mantissa pr m2 /\
    2 ^ pr * Z.abs (Zpos m2 * 2 ^ k - Zpos mx * Zpos my) <= Zpos mx * Zpos my.
Proof.
  intros Hx Hy Hlo Hhi.
  pose proof (normal_mantissa_bounds mx Hx) as [Xlo Xhi].
  pose proof (normal_mantissa_bounds my Hy) as [Ylo Yhi].
  pose proof (digits2_pos_bounds (mx * my)) as [Plo Phi].
  set (d := Zpos (digits2_pos (mx * my))) in *.
  assert (HP : 0 < 2 ^ (pr - 1)) by (apply Z.pow_pos_nonneg; lia).
  pose proof (pow2_split pr Hpr) as Hsplit.
  rewrite Pos2Z.inj_mul in Plo, Phi.
  assert (Hd : 2 * pr - 1 <= d <= 2 * pr).
  { assert (0 < d) by (unfold d; lia). split.
    - destruct (Z.lt_ge_cases d (2 * pr - 1)) as [Hlt | ?]; [| assumption].
      assert (2 ^ d <= 2 ^ (pr - 1 + (pr - 1)))
        by (apply Z.pow_le_mono_r; lia).
      rewrite Z.pow_add_r in * by lia. nia.
    - destruct (Z.lt_ge_cases (2 * pr) d) as [Hlt | ?]; [| lia].
      assert (2 ^ (pr + pr) <= 2 ^ (d - 1))
        by (apply Z.pow_le_mono_r; lia).
      rewrite Z.pow_add_r in * by lia. nia. }
  assert (Hloc : located (Zpos mx * Zpos my) 1 (Zpos (mx * my)) loc_Exact).
  { unfold located. rewrite Pos2Z.inj_mul. lia. }
  destruct (binary_round_aux_normal (xorb sx sy) (mx * my) (ex + ey) loc_Exact
              (Zpos mx * Zpos my) 1) as (m2 & k & Heq & Hk & Hd2 & Herr);
    try assumption; fold d; try lia.
  exists m2, k. cbn [SFmul]. rewrite Heq.
  rewrite Z.mul_1_r in Herr.
  split; [reflexivity |]. split; [lia |]. split; [exact Hd2 | exact Herr].
Qed.

(** The quotient of two normal floats, in the normal range: relative
    error at most [2^-pr]. *)
Lemma SFdiv_normal (sx sy : bool) (mx my : positive) (ex ey : Z) :
  normal_mantissa pr mx -> normal_mantissa pr my ->
  emin pr em <= ex - ey - pr ->
  ex - ey + 2 <= em ->
  exists (m1 : positive) (k : Z),
    SFdiv pr em (S754_finite sx mx ex) (S754_finite sy my ey) =
      S754_finite (xorb sx sy) m1 (ex - ey - pr + k) /\
    0 <= k <= 2 /\
    normal_mantissa pr m1 /\
    2 ^ pr * Z.abs (Zpos m1 * 2 ^ k * Zpos my - Zpos mx * 2 ^ pr)
      <= Zpos mx * 2 ^ pr.
Proof.
  intros Hx Hy Hlo Hhi.
  pose proof (normal_mantissa_bounds mx Hx) as [Xlo Xhi].
  pose proof (normal_mantissa_bounds my Hy) as [Ylo Yhi].
  assert (HP : 0 < 2 ^ (pr - 1)) by (apply Z.pow_pos_nonneg; lia).
  pose proof (pow2_split pr Hpr) as Hsplit.
  cbn [SFdiv]. unfold SFdiv_core_binary. cbn [Zdigits2].
  unfold normal_mantissa in Hx, Hy. rewrite Hx, Hy.
  replace (fexp pr em (pr + ex - (pr + ey))) with (ex - ey - pr)
    by (unfold fexp; lia).
  rewrite Z.min_l by lia.
  replace (ex - ey - (ex - ey - pr)) with pr by lia.
  assert (Hshift : match pr with
                   | Z0 => Zpos mx
                   | Zpos _ => Z.shiftl (Zpos mx) pr
                   | Zneg _ => 0
                   end = Zpos mx * 2 ^ pr).
  { destruct pr as [| pp | pp] eqn:Hpp; [lia | | lia].
    rewrite Z.shiftl_mul_pow2 by lia. reflexivity. }
  rewrite Hshift.
  pose proof (Z_div_mod (Zpos mx * 2 ^ pr) (Zpos my) eq_refl) as Hdm.
  destruct (Z.div_eucl (Zpos mx * 2 ^ pr) (Zpos my)) as [q r].
  destruct Hdm as [Hqr Hr].
  assert (Hq : 2 ^ (pr - 1) <= q < 2 * 2 ^ pr) by nia.
  destruct q as [| pq |]; [lia | | lia].
  pose proof (new_location_spec (Zpos my) r eq_refl Hr) as Hnl.
  assert (Hloc : located (Zpos mx * 2 ^ pr) (Zpos my) (Zpos pq)
                   (new_location (Zpos my) r)).
  { unfold located. replace (Zpos mx * 2 ^ pr - Zpos pq * Zpos my) with r by lia.
    split; [lia |]. split; [lia |]. exact Hnl. }
  pose proof (digits2_pos_bounds pq) as [Qlo Qhi].
  set (dq := Zpos (digits2_pos pq)) in *.
  assert (Hdq : pr <= dq <= pr + 1).
  { assert (0 < dq) by (unfold dq; lia). split.
    - destruct (Z.lt_ge_cases dq pr) as [Hlt | ?]; [| assumption].
      assert (2 ^ dq <= 2 ^ (pr - 1)) by (apply Z.pow_le_mono_r; lia). lia.
    - destruct (Z.lt_ge_cases (pr + 1) dq) as [Hlt | ?]; [| lia].
      assert (2 ^ (pr + 1) <= 2 ^ (dq - 1)) by (apply Z.pow_le_mono_r; lia).
      rewrite Z.pow_add_r, Z.pow_1_r in * by lia. lia. }
  destruct (binary_round_aux_normal (xorb sx sy) pq (ex - ey - pr)
              (new_location (Zpos my) r) (Zpos mx * 2 ^ pr) (Zpos my))
    as (m1 & k & Heq & Hk & Hd1 & Herr);
    try assumption; fold dq; try lia.
  exists m1, k. rewrite Heq.
  split; [reflexivity |]. split; [lia |]. split; [exact Hd1 | exact Herr].
Qed.


End NormalRange.

(* ================================================================== *)
(** ** Following the conversions back *)
(* ================================================================== *)

Lemma abs_cond_Zopp_sub (s : bool) (a b : Z) :
  Z.abs (cond_Zopp s a - cond_Zopp s b) = Z.abs (a - b).
Proof. destruct s; cbn; lia. Qed.

Lemma abs_cond_Zopp (s : bool) (a : Z) : Z.abs (cond_Zopp s a) = Z.abs a.
Proof. destruct s; cbn; lia. Qed.


Lemma in_roundtrip_range_finite (s : bool) (m : positive) (e : Z) :
  in_roundtrip_range (S754_finite s m e) = true ->
  Zpos (digits2_pos m) = 53 /\ -1052 <= e <= 968.
Proof.
  cbn [in_roundtrip_range]. rewrite !andb_true_iff, Z.eqb_eq, !Z.leb_le. lia.
Qed.

(** The floats of the range are valid binary64 values. *)
Lemma in_roundtrip_range_valid (x : float) :
  in_roundtrip_range x = true -> valid x = true /\ is_finite x = true.
Proof.
  destruct x as [s | s | | s m e]; try discriminate; [split; reflexivity |].
  intros H. destruct (in_roundtrip_range_finite s m e H) as [Hm He].
  split; [| reflexivity].
  unfold valid, valid_binary, bounded, canonical_mantissa, fexp, emin, prec,
    emax.
  rewrite Hm. apply andb_true_iff. split; [apply Z.eqb_eq | apply Z.leb_le]; lia.
Qed.




(* ================================================================== *)
(** ** What a run shows and how it can end *)
(* ================================================================== *)

(** X1: a run renders at most one result box, and never a result box
    together with an error message: a run that renders a result ends
    normally and shows no error, a run that shows an error renders no
    result. *)
Theorem result_excludes_error :
  forall (disk : string -> outcome pyobj) (w : widgets),
    let t := trace (snd (run disk w)) in
    (List.length (results_of t) <= 1)%nat /\
    (results_of t <> [] -> errors_of t = [] /\ fst (run disk w) = Return tt) /\
    (errors_of t <> [] -> results_of t = []).
Proof.
  intros disk w. cbv zeta.
  destruct (load_calls_model_once disk) as (_ & _ & _ & Herr & Hres).
  destruct (load_outcome disk) as [[m sc] | e] eqn:Hl.
  - destruct (predict_clicked w) eqn:Hc.
    + rewrite (run_predict disk w m sc Hl Hc). cbv zeta.
      destruct (py_transform sc (input_df_of w)) as [x | e];
        [destruct (py_predict m x) as [[| y ys] | e] |];
        read_trace disk; rewrite ?Herr, ?Hres; cbn;
        repeat split; try lia; try congruence.
    + rewrite (run_idle disk w m sc Hl Hc).
      read_trace disk. rewrite ?Herr, ?Hres. cbn.
      repeat split; try lia; congruence.
  - destruct (isinstance e Exception) eqn:He.
    + rewrite (run_load_caught disk w e Hl He).
      read_trace disk. rewrite ?Herr, ?Hres.
      destruct (predict_clicked w); cbn; repeat split; try lia; congruence.
    + rewrite (run_load_escapes disk w e Hl He).
      read_trace disk. rewrite ?Herr, ?Hres. cbn.
      repeat split; try lia; congruence.
Qed.

(** X2: [model.predict] is only ever called on what [scaler.transform]
    returned for the assembled record, with the artifacts loaded and the
    button clicked. *)
Theorem predict_only_on_scaled_input :
  forall (disk : string -> outcome pyobj) (w : widgets) (x : ndarray2),
    In (EvPredict x) (trace (snd (run disk w))) ->
    predict_clicked w = true /\
    exists m sc,
      load_outcome disk = Return (m, sc) /\
      py_transform sc (input_df_of w) = Return x /\
      artifact_calls (trace (snd (run disk w))) =
        [EvTransform (input_df_of w); EvPredict x].
Proof.
  intros disk w x Hin.
  apply (In_artifact_calls (EvPredict x) _ eq_refl) in Hin.
  destruct (load_calls_model_once disk) as (_ & _ & Ha & _ & _).
  destruct (load_outcome disk) as [[m sc] | e] eqn:Hl.
  - destruct (predict_clicked w) eqn:Hc.
    + split; [reflexivity |]. exists m, sc. split; [reflexivity |].
      revert Hin. rewrite (run_predict disk w m sc Hl Hc). cbv zeta.
      destruct (py_transform sc (input_df_of w)) as [x' | e] eqn:Ht;
        [destruct (py_predict m x') as [[| y ys] | e] |];
        read_trace disk; rewrite Ha; cbn;
        intros H;
        first [ destruct H as [H | [H | []]] | destruct H as [H | []] ];
        try discriminate H;
        injection H as <-; split; reflexivity.
    + exfalso. revert Hin. rewrite (run_idle disk w m sc Hl Hc).
      read_trace disk. rewrite Ha. cbn. tauto.
  - exfalso. revert Hin. destruct (isinstance e Exception) eqn:He.
    + rewrite (run_load_caught disk w e Hl He).
      read_trace disk. rewrite Ha. destruct (predict_clicked w); cbn; tauto.
    + rewrite (run_load_escapes disk w e Hl He).
      read_trace disk. rewrite Ha. cbn. tauto.
Qed.

Lemma predict_only_on_scaled_input_witness :
  In (EvPredict [[of_decimal 3 1; of_decimal 250 1; of_int 0;
                  of_decimal 100 1; of_int 45; of_decimal 35 1]])
     (trace (snd (run good_disk default_request))) /\
  py_transform identity_scaler (input_df_of default_request) =
    Return [[of_decimal 3 1; of_decimal 250 1; of_int 0;
             of_decimal 100 1; of_int 45; of_decimal 35 1]].
Proof.
  assert (Hin : In (EvPredict [[of_decimal 3 1; of_decimal 250 1; of_int 0;
                                of_decimal 100 1; of_int 45; of_decimal 35 1]])
                   (trace (snd (run good_disk default_request)))).
  { vm_compute. tauto. }
  split; [exact Hin |].
  destruct (predict_only_on_scaled_input good_disk default_request _ Hin)
    as (_ & m & sc & Hl & Ht & _).
  injection Hl as <- <-. exact Ht.
Defined.

(** X3: the ways a run can end with an exception.  It is one the guard
    does not catch, raised while loading; or, with the artifacts loaded
    and the button clicked, one raised by [scaler.transform], one raised
    by [model.predict], or the [IndexError] of indexing an empty answer.
    In particular the names [model] and [scaler], unbound after a failed
    load, are never read. *)
Theorem run_failure_causes :
  forall (disk : string -> outcome pyobj) (w : widgets) (e : exn),
    fst (run disk w) = Raise e ->
    (load_outcome disk = Raise e /\ isinstance e Exception = false) \/
    (predict_clicked w = true /\
     exists m sc,
       load_outcome disk = Return (m, sc) /\
       (py_transform sc (input_df_of w) = Raise e \/
        exists x,
          py_transform sc (input_df_of w) = Return x /\
          (py_predict m x = Raise e \/
           (py_predict m x = Return [] /\ exn_class e = IndexError)))).
Proof.
  intros disk w e.
  destruct (load_outcome disk) as [[m sc] | e'] eqn:Hl.
  - destruct (predict_clicked w) eqn:Hc.
    + rewrite (run_predict disk w m sc Hl Hc). cbv zeta.
      intros H. right. split; [reflexivity |]. exists m, sc.
      split; [reflexivity |].
      destruct (py_transform sc (input_df_of w)) as [x | e1] eqn:Ht.
      * right. exists x. split; [reflexivity |].
        destruct (py_predict m x) as [[| y ys] | e2] eqn:Hp;
          cbn [fst] in H.
        -- right. split; [reflexivity |]. injection H as <-. reflexivity.
        -- discriminate H.
        -- left. injection H as <-. reflexivity.
      * left. cbn [fst] in H. injection H as <-. reflexivity.
    + rewrite (run_idle disk w m sc Hl Hc). discriminate.
  - destruct (isinstance e' Exception) eqn:He.
    + rewrite (run_load_caught disk w e' Hl He). discriminate.
    + rewrite (run_load_escapes disk w e' Hl He). cbn [fst].
      intros H. injection H as <-. left. split; [reflexivity | exact He].
Qed.

Lemma run_failure_causes_witness :
  fst (run bad_scaler_disk default_request) =
    Raise (mk_exn ValueError "X has 6 features, but StandardScaler is expecting 5 features as input.") /\
  load_outcome bad_scaler_disk <>
    Raise (mk_exn ValueError "X has 6 features, but StandardScaler is expecting 5 features as input.").
Proof.
  split; [reflexivity |].
  destruct (run_failure_causes bad_scaler_disk default_request
              (mk_exn ValueError "X has 6 features, but StandardScaler is expecting 5 features as input.")
              eq_refl) as [[Hl _] | _].
  - discriminate Hl.
  - discriminate.
Defined.

(** X4: when [model.predict] answers an empty array, indexing it raises
    [IndexError]: the run ends with it after both calls to the artifacts,
    with no result box and no message. *)
Theorem empty_prediction_raises_IndexError :
  forall (disk : string -> outcome pyobj) (w : widgets) (m sc : pyobj)
         (x : ndarray2),
    load_outcome disk = Return (m, sc) ->
    predict_clicked w = true ->
    py_transform sc (input_df_of w) = Return x ->
    py_predict m x = Return [] ->
    (exists e, fst (run disk w) = Raise e /\ exn_class e = IndexError) /\
    artifact_calls (trace (snd (run disk w))) =
      [EvTransform (input_df_of w); EvPredict x] /\
    results_of (trace (snd (run disk w))) = [] /\
    errors_of (trace (snd (run disk w))) = [].
Proof.
  intros disk w m sc x Hl Hc Ht Hp.
  destruct (load_calls_model_once disk) as (_ & _ & Ha & Herr & Hres).
  rewrite (run_predict disk w m sc Hl Hc). cbv zeta. rewrite Ht, Hp.
  read_trace disk. rewrite ?Ha, ?Herr, ?Hres.
  split; [eexists; split; reflexivity |]. repeat split.
Qed.

Lemma empty_prediction_raises_IndexError_witness :
  load_outcome silent_model_disk = Return (silent_model, identity_scaler) /\
  raises (fst (run silent_model_disk default_request)) = true /\
  results_of (trace (snd (run silent_model_disk default_request))) = [].
Proof.
  split; [reflexivity |].
  destruct (empty_prediction_raises_IndexError silent_model_disk
              default_request silent_model identity_scaler
              (map (map cell_to_float) (df_rows (input_df_of default_request)))
              eq_refl eq_refl eq_refl eq_refl)
    as ((e & He & _) & _ & Hres & _).
  split; [rewrite He; reflexivity | exact Hres].
Defined.

(** The message of line 160 shows the exception's text. *)
Lemma load_error_message_shows_exception (e : exn) :
  occurs_in (exn_str e) (load_error_message e).
Proof.
  exists "⚠️ Could not load model files: ",
         (nl ++ nl ++
          "Make sure `model.pkl` and `scaler.pkl` are in the same folder as `app.py`.")%string.
  reflexivity.
Qed.

(** X5: when reading [model.pkl] raises, [scaler.pkl] is not read at all;
    and if the guard catches the exception, the first message shown
    carries its text. *)
Theorem model_failure_skips_scaler :
  forall (disk : string -> outcome pyobj) (w : widgets) (e : exn),
    disk "model.pkl" = Raise e ->
    loads_of "model.pkl" (trace (snd (run disk w))) = 1%nat /\
    loads_of "scaler.pkl" (trace (snd (run disk w))) = 0%nat /\
    (isinstance e Exception = true ->
       exists rest,
         errors_of (trace (snd (run disk w))) = load_error_message e :: rest /\
         occurs_in (exn_str e) (load_error_message e)).
Proof.
  intros disk w e Hm.
  assert (Hl : load_outcome disk = Raise e) by (unfold load_outcome; rewrite Hm; reflexivity).
  assert (Hc : load_calls disk = [EvLoad "model.pkl"])
    by (unfold load_calls; rewrite Hm; reflexivity).
  destruct (isinstance e Exception) eqn:He.
  - rewrite (run_load_caught disk w e Hl He). read_trace disk. rewrite Hc.
    destruct (predict_clicked w); cbn; repeat split;
      intros _; eexists; (split; [reflexivity | apply load_error_message_shows_exception]).
  - rewrite (run_load_escapes disk w e Hl He). read_trace disk. rewrite Hc.
    cbn. repeat split. discriminate.
Qed.

Lemma model_failure_skips_scaler_witness :
  empty_disk "model.pkl" = Raise (no_such_file "model.pkl") /\
  loads_of "scaler.pkl" (trace (snd (run empty_disk default_request))) = 0%nat.
Proof.
  split; [reflexivity |].
  destruct (model_failure_skips_scaler empty_disk default_request
              (no_such_file "model.pkl") eq_refl) as (_ & Hs & _).
  exact Hs.
Defined.

(* ================================================================== *)
(** ** The cache across runs *)
(* ================================================================== *)

(** A run that finds a cached pair keeps it and reads no file. *)
Lemma rerun_cached (disk : string -> outcome pyobj) (w : widgets)
    (v : pyobj * pyobj) :
  resource_cache (snd (rerun disk w (Some v))) = Some v /\
  forall path, loads_of path (trace (snd (rerun disk w (Some v)))) = 0%nat.
Proof.
  destruct v as [m sc].
  destruct (page_session_independent
              (mk_globals (Some m) (Some sc) true) w)
    as (o & delta & Hp & Hnl).
  assert (H : rerun disk w (Some (m, sc)) =
              (o, mk_session (Some (m, sc)) ([EvStatic "css"] ++ delta))).
  { unfold rerun, script, bind at 1. cbn [emit app trace resource_cache].
    unfold bind. rewrite load_guard_cached, Hp. reflexivity. }
  rewrite H. cbn [snd resource_cache trace]. split; [reflexivity |].
  intros path. rewrite loads_of_app, Hnl. reflexivity.
Qed.

(** X6: once the artifacts are cached, every later run of the process
    finds the same pair, leaves it in place and calls [joblib.load] on
    neither file, whatever the files and the widgets have become. *)
Theorem cached_artifacts_are_kept :
  forall (steps : list ((string -> outcome pyobj) * widgets))
         (v : pyobj * pyobj),
    cache_after steps (Some v) = Some v /\
    Forall (fun r =>
              resource_cache (snd r) = Some v /\
              loads_of "model.pkl" (trace (snd r)) = 0%nat /\
              loads_of "scaler.pkl" (trace (snd r)) = 0%nat)
           (reruns steps (Some v)).
Proof.
  intros steps v. induction steps as [| [disk w] rest IH].
  - split; [reflexivity | constructor].
  - destruct (rerun_cached disk w v) as [Hc Hl].
    cbn [cache_after reruns]. rewrite Hc. destruct IH as [IH1 IH2].
    split; [exact IH1 |].
    constructor; [| exact IH2].
    split; [exact Hc |]. split; apply Hl.
Qed.

(** X7: a failed load is not remembered.  After a run in which loading
    raised, the cache is still empty, so the next run of the process is a
    first run again: it calls [joblib.load] on [model.pkl] once more, and
    if the files are there by then it loads and caches them. *)
Theorem failed_load_is_retried :
  forall (disk1 disk2 : string -> outcome pyobj) (w1 w2 : widgets) (e : exn),
    load_outcome disk1 = Raise e ->
    let c := resource_cache (snd (run disk1 w1)) in
    c = None /\
    rerun disk2 w2 c = run disk2 w2 /\
    loads_of "model.pkl" (trace (snd (rerun disk2 w2 c))) = 1%nat /\
    (forall m sc,
        load_outcome disk2 = Return (m, sc) ->
        resource_cache (snd (rerun disk2 w2 c)) = Some (m, sc)).
Proof.
  intros disk1 disk2 w1 w2 e Hl. cbv zeta.
  assert (Hc : resource_cache (snd (run disk1 w1)) = None).
  { destruct (isinstance e Exception) eqn:He.
    - rewrite (run_load_caught disk1 w1 e Hl He). reflexivity.
    - rewrite (run_load_escapes disk1 w1 e Hl He). reflexivity. }
  rewrite Hc. split; [reflexivity |]. split; [reflexivity |].
  change (rerun disk2 w2 None) with (run disk2 w2).
  destruct (load_calls_model_once disk2) as (Hm & _).
  split.
  - destruct (load_outcome disk2) as [[m sc] | e2] eqn:Hl2.
    + destruct (predict_clicked w2) eqn:Hp.
      * rewrite (run_predict disk2 w2 m sc Hl2 Hp). cbv zeta.
        destruct (py_transform sc (input_df_of w2)) as [x | e'];
          [destruct (py_predict m x) as [[| y ys] | e'] |];
          read_trace disk2; rewrite Hm; reflexivity.
      * rewrite (run_idle disk2 w2 m sc Hl2 Hp).
        read_trace disk2. rewrite Hm. reflexivity.
    + destruct (isinstance e2 Exception) eqn:He2.
      * rewrite (run_load_caught disk2 w2 e2 Hl2 He2).
        read_trace disk2. rewrite Hm.
        destruct (predict_clicked w2); reflexivity.
      * rewrite (run_load_escapes disk2 w2 e2 Hl2 He2).
        read_trace disk2. rewrite Hm. reflexivity.
  - intros m sc Hl2. destruct (predict_clicked w2) eqn:Hp.
    + rewrite (run_predict disk2 w2 m sc Hl2 Hp). cbv zeta.
      destruct (py_transform sc (input_df_of w2)) as [x | e'];
        [destruct (py_predict m x) as [[| y ys] | e'] |]; reflexivity.
    + rewrite (run_idle disk2 w2 m sc Hl2 Hp). reflexivity.
Qed.

Lemma failed_load_is_retried_witness :
  load_outcome empty_disk = Raise (no_such_file "model.pkl") /\
  results_of
    (trace (snd (rerun good_disk default_request
                   (resource_cache (snd (run empty_disk default_request))))))
  = [render_result default_request (of_int (-5))].
Proof.
  split; [reflexivity |].
  destruct (failed_load_is_retried empty_disk good_disk default_request
              default_request (no_such_file "model.pkl") eq_refl)
    as (_ & Hrun & _).
  cbv zeta in Hrun. rewrite Hrun. reflexivity.
Defined.

(* ================================================================== *)
(** ** The condition along its two inputs *)
(* ================================================================== *)

Lemma label_of_condition_text (l : label) :
  label_of_condition (label_text l) = Some l.
Proof. destruct l; reflexivity. Qed.

(** X8: the condition never improves when the sky cover grows or the sun
    is farther from noon: for sky covers [0 <= sky1 <= sky2] and slider
    values [d1 <= d2], the condition of [(sky2, d2)] ranks at least as
    bad (IDEAL, MODERATE, LOW) as that of [(sky1, d1)]. *)
Theorem condition_monotone :
  forall (sky1 sky2 : Z) (d1 d2 : float),
    valid d1 = true -> is_finite d1 = true ->
    valid d2 = true -> is_finite d2 = true ->
    0 <= sky1 <= sky2 ->
    units d1 <= units d2 ->
    exists l1 l2,
      label_of_condition (condition sky1 d1) = Some l1 /\
      label_of_condition (condition sky2 d2) = Some l2 /\
      (rank l1 <= rank l2)%nat.
Proof.
  intros sky1 sky2 d1 d2 Hv1 Hf1 Hv2 Hf2 Hsky Hd.
  rewrite !condition_by_rules, !label_of_condition_text.
  destruct (thresholds_compare_values d1 Hv1 Hf1) as [-> ->].
  destruct (thresholds_compare_values d2 Hv2 Hf2) as [-> ->].
  assert (Hlt : 5404319552844595 * 2 ^ 1020 < 5404319552844595 * 2 ^ 1022)
    by reflexivity.
  set (A := 5404319552844595 * 2 ^ 1020) in *.
  set (B := 5404319552844595 * 2 ^ 1022) in *.
  eexists _, _. split; [reflexivity |]. split; [reflexivity |].
  destruct (Z.eqb_spec sky1 0), (Z.eqb_spec sky2 0),
    (Z.leb_spec 3 sky1), (Z.leb_spec 3 sky2),
    (Z.ltb_spec (units d1) A), (Z.ltb_spec (units d2) A),
    (Z.ltb_spec B (units d1)), (Z.ltb_spec B (units d2));
    cbn; lia.
Qed.

Lemma condition_monotone_witness :
  units (of_decimal 29 2) <= units (of_decimal 121 2) /\
  exists l1 l2,
    label_of_condition (condition 0 (of_decimal 29 2)) = Some l1 /\
    label_of_condition (condition 2 (of_decimal 121 2)) = Some l2 /\
    (rank l1 <= rank l2)%nat.
Proof.
  split; [vm_compute; discriminate |].
  apply (condition_monotone 0 2 (of_decimal 29 2) (of_decimal 121 2));
    try reflexivity; try lia.
  vm_compute; discriminate.
Defined.

(** X13: a distance that is not a number compares false with both
    thresholds, so it is never IDEAL: the condition is LOW when
    sky_cover >= 3 and MODERATE otherwise. *)
Theorem condition_of_nan_distance :
  forall (sky : Z),
    condition sky S754_nan =
    label_text (if 3 <=? sky then LOW else MODERATE).
Proof.
  intros sky. rewrite condition_by_rules.
  change (flt S754_nan (of_decimal 3 1)) with false.
  change (fgt S754_nan (of_decimal 12 1)) with false.
  rewrite andb_false_r, orb_false_r. reflexivity.
Qed.

(* ================================================================== *)
(** ** The sky-cover selector *)
(* ================================================================== *)

(** X12: the selector's [format_func] names every option it is offered
    (no [KeyError]), the name starting with the option's digit, and has
    no entry for anything else. *)
Theorem format_func_total_on_options :
  forall (x : Z),
    (In x sky_cover_options ->
     exists name, format_func x = Some name /\
                  String.prefix (digit_string x) name = true) /\
    (~ In x sky_cover_options -> format_func x = None).
Proof.
  intros x. split.
  - intros Hin. cbn in Hin.
    destruct Hin as [<- | [<- | [<- | [<- | [<- | []]]]]];
      eexists; split; reflexivity.
  - intros Hn. unfold format_func, sky_cover_names. cbn.
    destruct (Z.eqb_spec x 0) as [-> |]; [exfalso; apply Hn; cbn; tauto |].
    destruct (Z.eqb_spec x 1) as [-> |]; [exfalso; apply Hn; cbn; tauto |].
    destruct (Z.eqb_spec x 2) as [-> |]; [exfalso; apply Hn; cbn; tauto |].
    destruct (Z.eqb_spec x 3) as [-> |]; [exfalso; apply Hn; cbn; tauto |].
    destruct (Z.eqb_spec x 4) as [-> |]; [exfalso; apply Hn; cbn; tauto |].
    reflexivity.
Qed.

(* ================================================================== *)
(** ** The conversions one by one *)
(* ================================================================== *)

(** A finite prediction of the range is normal. *)
Lemma in_division_range_finite (s : bool) (m : positive) (e : Z) :
  in_division_range (S754_finite s m e) = true ->
  Zpos (digits2_pos m) = 53 /\ -1052 <= e <= 971.
Proof.
  cbn [in_division_range]. rewrite andb_true_iff, Z.leb_le. intros [Hv He].
  destruct (valid_finite_bounds s m e Hv) as (Hb & Hhi & Hlo).
  split; [| lia]. apply digits2_pos_unique.
  change (2 ^ (53 - 1)) with (2 ^ 52). split; [apply Hlo; lia | exact Hhi].
Qed.

(** The quotient of a normal float by a positive normal constant of value
    [C], in the normal range: a normal float within [2^-53] of the exact
    quotient. *)
Lemma fdiv_accurate (s : bool) (m mc : positive) (e ec C : Z) :
  Zpos (digits2_pos m) = 53 -> Zpos (digits2_pos mc) = 53 ->
  ec <= 0 -> Zpos mc = C * 2 ^ (- ec) ->
  -1074 <= e - ec - 53 -> e - ec + 2 <= 1024 -> -1074 <= e ->
  exists (m1 : positive) (k : Z),
    fdiv (S754_finite s m e) (S754_finite false mc ec) =
      S754_finite s m1 (e - ec - 53 + k) /\
    0 <= k <= 2 /\
    Zpos (digits2_pos m1) = 53 /\
    2 ^ 53 * Z.abs (units (S754_finite s m1 (e - ec - 53 + k)) * C
                    - units (S754_finite s m e))
      <= Z.abs (units (S754_finite s m e)).
Proof.
  intros Hm Hmc Hec HC H1 H2 H3.
  destruct (SFdiv_normal 53 1024 eq_refl s false m mc e ec Hm Hmc)
    as (m1 & k & Heq & Hk & Hn & Herr); try (unfold emin; lia).
  exists m1, k. unfold fdiv, prec, emax. rewrite Heq, xorb_false_r.
  split; [reflexivity |]. split; [exact Hk |]. split; [exact Hn |].
  cbn [units].
  set (c := 2 ^ (e + 1074)).
  assert (Hc : 0 < c) by (apply Z.pow_pos_nonneg; lia).
  set (Uq := Zpos m1 * 2 ^ (e - ec - 53 + k + 1074)).
  set (Ur := Zpos m * c).
  assert (HUr : 0 <= Ur) by (unfold Ur; lia).
  replace (cond_Zopp s Uq * C - cond_Zopp s Ur)
    with (cond_Zopp s (Uq * C) - cond_Zopp s Ur) by (destruct s; cbn; ring).
  rewrite abs_cond_Zopp_sub, abs_cond_Zopp.
  assert (Hq : 2 ^ 53 * (Uq * C) = Zpos m1 * 2 ^ k * Zpos mc * c).
  { unfold Uq, c. rewrite HC.
    replace (e - ec - 53 + k + 1074) with (k + - ec + (e + 1074) - 53) by lia.
    replace (2 ^ 53 * (Zpos m1 * 2 ^ (k + - ec + (e + 1074) - 53) * C))
      with (Zpos m1 * C * (2 ^ 53 * 2 ^ (k + - ec + (e + 1074) - 53))) by ring.
    rewrite <- Z.pow_add_r by lia.
    replace (53 + (k + - ec + (e + 1074) - 53)) with (k + - ec + (e + 1074)) by lia.
    rewrite !Z.pow_add_r by lia. ring. }
  assert (Hr : 2 ^ 53 * Ur = Zpos m * 2 ^ 53 * c) by (unfold Ur; ring).
  assert (Hscaled : 2 ^ 53 * Z.abs (Zpos m1 * 2 ^ k * Zpos mc * c - Zpos m * 2 ^ 53 * c)
                    <= Zpos m * 2 ^ 53 * c).
  { replace (Zpos m1 * 2 ^ k * Zpos mc * c - Zpos m * 2 ^ 53 * c)
      with ((Zpos m1 * 2 ^ k * Zpos mc - Zpos m * 2 ^ 53) * c) by ring.
    rewrite Z.abs_mul, (Z.abs_eq c) by lia.
    rewrite Z.mul_assoc. apply Z.mul_le_mono_nonneg_r; [lia | exact Herr]. }
  rewrite <- Hq, <- Hr in Hscaled.
  change (2 ^ 53) with 9007199254740992 in *.
  lia.
Qed.



(** Multiplying a normal float by 8 keeps the mantissa and adds 3 to the
    exponent, away from overflow. *)
Lemma fmul_8_exact (s : bool) (m : positive) (e : Z) :
  Zpos (digits2_pos m) = 53 ->
  -1074 <= e <= 966 ->
  kwh_per_day_of (S754_finite s m e) = S754_finite s m (e + 3).
Proof.
  intros Hm He. unfold kwh_per_day_of, fmul.
  change (of_int 8) with (S754_finite false 4503599627370496 (-49)).
  unfold prec, emax.
  destruct (SFmul_normal 53 1024 eq_refl s false m 4503599627370496 e (-49)
              Hm eq_refl) as (m2 & k & Heq & Hk & Hn & Herr);
    try (unfold emin; lia).
  rewrite Heq, xorb_false_r.
  pose proof (digits2_pos_bounds m) as [Mlo Mhi]. rewrite Hm in Mlo, Mhi.
  pose proof (digits2_pos_bounds m2) as [Nlo Nhi].
  unfold normal_mantissa in Hn. rewrite Hn in Nlo, Nhi.
  change (2 ^ (53 - 1)) with 4503599627370496 in *.
  change (2 ^ 53) with 9007199254740992 in *.
  assert (Hcases : k = 52 \/ k = 53 \/ k = 54) by lia.
  destruct Hcases as [-> | [-> | ->]].
  - change (2 ^ 52) with 4503599627370496 in Herr.
    assert (Zpos m2 = Zpos m) by lia.
    f_equal; [congruence | lia].
  - change (2 ^ 53) with 9007199254740992 in Herr. lia.
  - change (2 ^ 54) with 18014398509481984 in Herr. lia.
Qed.

(** X9: the daily estimate shown is exactly eight times the kWh value
    shown: for a prediction of the range, the product of line 256 rounds
    nothing away and does not overflow. *)
Theorem daily_estimate_exact :
  forall (w : widgets) (raw_joules : float),
    in_division_range raw_joules = true ->
    let rb := render_result w raw_joules in
    is_finite (fld_value (rb_kwh_per_day rb)) = true /\
    units (fld_value (rb_kwh_per_day rb)) = 8 * units (fld_value (rb_kwh rb)).
Proof.
  intros w raw Hrange. cbv zeta. unfold render_result.
  destruct (condition (sky_cover w) (distance_to_solar_noon w)) as [c h].
  cbn [rb_kwh_per_day rb_kwh fld_value].
  destruct raw as [s | s | | s m e]; try discriminate Hrange.
  - destruct s; split; reflexivity.
  - destruct (in_division_range_finite s m e Hrange) as [Hm He].
    destruct (fdiv_accurate s m 7730941132800000 e (-31) 3600000 Hm)
      as (m1 & k & Hq & Hk & Hn & _); try reflexivity; try lia.
    unfold kwh_of.
    change (of_int 3600000) with (S754_finite false 7730941132800000 (-31)).
    rewrite Hq.
    rewrite (fmul_8_exact s m1 (e - -31 - 53 + k) Hn) by lia.
    split; [reflexivity |]. cbn [units].
    replace (e - -31 - 53 + k + 3 + 1074) with (e - -31 - 53 + k + 1074 + 3) by lia.
    rewrite Z.pow_add_r by lia. change (2 ^ 3) with 8.
    destruct s; cbn [cond_Zopp]; ring.
Qed.

Lemma daily_estimate_exact_witness :
  in_division_range (of_int 1001) = true /\
  fld_value (rb_kwh (render_result default_request (of_int 1001))) =
    S754_finite false 5129219671606461 (-64) /\
  units (fld_value (rb_kwh_per_day (render_result default_request (of_int 1001))))
    = 8 * units (S754_finite false 5129219671606461 (-64)).
Proof.
  split; [reflexivity |]. split; [reflexivity |].
  destruct (daily_estimate_exact default_request (of_int 1001) eq_refl)
    as [_ H].
  exact H.
Defined.

(* ================================================================== *)
(** ** Signs *)
(* ================================================================== *)

Lemma shr_nonneg (mrs : shr_record) (e n : Z) :
  0 <= shr_m mrs -> 0 <= shr_m (fst (shr mrs e n)).
Proof.
  intros Hm. destruct n as [| p | p]; cbn [shr fst]; try exact Hm.
  pose (P := fun (_ : Z) (r : shr_record) => 0 <= shr_m r).
  change (P (0 + Zpos p) (iter_pos shr_1 p mrs)).
  apply iter_pos_invariant; [| lia | exact Hm].
  intros k x _ Hx. unfold P in *.
  destruct (shr_1_spec x Hx) as (_ & H & _). exact H.
Qed.

Lemma round_nearest_even_nonneg (m : Z) (l : location) :
  0 <= m -> 0 <= round_nearest_even m l.
Proof.
  intros Hm. destruct l as [| []]; cbn [round_nearest_even]; try lia.
  destruct (Z.even m); lia.
Qed.

Section Signs.

Variables pr em : Z.

(** Rounding a nonnegative mantissa gives a zero, a finite number or an
    infinity of the requested sign, never a NaN. *)
Lemma binary_round_aux_sign (sx : bool) (mx ex : Z) (lx : location) :
  0 <= mx ->
  sign_of (binary_round_aux pr em sx mx ex lx) = Some sx.
Proof.
  intros Hm. unfold binary_round_aux, shr_fexp.
  destruct (loc_of_shr_record_of_loc mx lx) as [_ Hm0].
  assert (H1 : 0 <= shr_m (fst (shr (shr_record_of_loc mx lx) ex
                                   (fexp pr em (Zdigits2 mx + ex) - ex))))
    by (apply shr_nonneg; rewrite Hm0; exact Hm).
  destruct (shr (shr_record_of_loc mx lx) ex
              (fexp pr em (Zdigits2 mx + ex) - ex)) as [mrs1 e1].
  cbn [fst] in H1.
  set (m2 := round_nearest_even (shr_m mrs1) (loc_of_shr_record mrs1)).
  assert (H2 : 0 <= m2) by (apply round_nearest_even_nonneg; exact H1).
  assert (H3 : 0 <= shr_m (fst (shr (shr_record_of_loc m2 loc_Exact) e1
                                   (fexp pr em (Zdigits2 m2 + e1) - e1))))
    by (apply shr_nonneg; cbn; exact H2).
  destruct (shr (shr_record_of_loc m2 loc_Exact) e1
              (fexp pr em (Zdigits2 m2 + e1) - e1)) as [mrs3 e3].
  cbn [fst] in H3.
  destruct (shr_m mrs3) as [| q | q]; [reflexivity | | lia].
  destruct (e3 <=? em - pr); reflexivity.
Qed.

(** Dividing by a positive finite constant keeps the sign, and gives a
    NaN only from a NaN. *)
Lemma SFdiv_sign (x : spec_float) (mc : positive) (ec : Z) :
  sign_of (SFdiv pr em x (S754_finite false mc ec)) = sign_of x.
Proof.
  destruct x as [s | s | | s m e]; cbn [SFdiv sign_of];
    rewrite ?xorb_false_r; try reflexivity.
  unfold SFdiv_core_binary.
  set (m' := match _ - _ - _ with
             | 0 => Zpos m
             | Zpos _ => Z.shiftl (Zpos m) _
             | Zneg _ => 0
             end).
  assert (Hm' : 0 <= m').
  { unfold m'. destruct (_ - _ - _) as [| p | p]; try lia.
    apply Z.shiftl_nonneg. lia. }
  pose proof (Z_div_mod m' (Zpos mc) eq_refl) as Hdm.
  destruct (Z.div_eucl m' (Zpos mc)) as [q r].
  destruct Hdm as [Hqr Hr].
  apply binary_round_aux_sign. nia.
Qed.

(** So does multiplying by one. *)
Lemma SFmul_sign (x : spec_float) (mc : positive) (ec : Z) :
  sign_of (SFmul pr em x (S754_finite false mc ec)) = sign_of x.
Proof.
  destruct x as [s | s | | s m e]; cbn [SFmul sign_of];
    rewrite ?xorb_false_r; try reflexivity.
  apply binary_round_aux_sign. lia.
Qed.

End Signs.

(** X11: the three derived values carry the sign of the raw prediction,
    whatever it is: a negative prediction shows negative kWh, kilojoules
    and daily estimate, a zero keeps its sign, and a derived value is a
    NaN only when the prediction is one. *)
Theorem derived_values_keep_sign :
  forall (raw_joules : float),
    sign_of (kwh_of raw_joules) = sign_of raw_joules /\
    sign_of (kilojoules_of raw_joules) = sign_of raw_joules /\
    sign_of (kwh_per_day_of (kwh_of raw_joules)) = sign_of raw_joules.
Proof.
  intros raw. unfold kwh_of, kilojoules_of, kwh_per_day_of, fdiv, fmul.
  change (of_int 1000) with (S754_finite false 8796093022208000 (-43)).
  change (of_int 3600000) with (S754_finite false 7730941132800000 (-31)).
  change (of_int 8) with (S754_finite false 4503599627370496 (-49)).
  rewrite SFmul_sign, !SFdiv_sign. repeat split.
Qed.
